(** * scripts/mcps.py: the repository-list updater

    A shallow embedding of [update_mcps] and of the command-line entry
    point of [scripts/mcps.py], and the properties of the specification
    proved (or refuted) on it.

    Modelling decisions.
    - A JSON value is the Python object [json.load] builds: [None], [bool],
      [int], [float], [str], [list] and [dict].  A [dict] keeps its keys in
      insertion order and [json.dump] writes them in that order, so a dict
      is an association list; [d[k] = v] overwrites in place when [k] is
      there and adds [k] at the end otherwise.
    - Python strings are Rocq strings.  The only character the program
      looks at is the separator ['/'], which is one byte in UTF-8 and
      occurs inside no multi-byte sequence.
    - The [json] module is taken as given: the content of a file is
      the value [json.load] returns on it, or the exception it raises, and
      a file written by [json.dump] loads back as the value written.
    - Every exception of the model is a subclass of [Exception]:
      the handler [except Exception] takes them all.  Signals
      ([KeyboardInterrupt]) are outside the model. *)

From Stdlib Require Import Ascii.
From stdpp Require Import gmap strings list fin_maps.

Local Open Scope string_scope.
Local Open Scope list_scope.

(** ** Exceptions *)

Inductive exn_class : Type :=
| OSError
| FileNotFoundError
| UnicodeDecodeError
| JSONDecodeError
| AttributeError
| TypeError
| IndexError
| KeyError.

(** An exception with the text of [str(e)]. *)
Record exn : Type := Exn { exn_kind : exn_class; exn_str : string }.

Inductive result (A : Type) : Type :=
| Ok (a : A)
| Raise (e : exn).
Arguments Ok {A} a.
Arguments Raise {A} e.

#[export] Instance result_ret : MRet result := fun A a => Ok a.
#[export] Instance result_bind : MBind result := fun A B f m =>
  match m with
  | Ok a => f a
  | Raise e => Raise e
  end.

Definition is_ok {A} (r : result A) : bool :=
  match r with Ok _ => true | Raise _ => false end.

(** ** Python dicts with string keys *)

Module Dict.
Section ops.
Context {V : Type}.

(** [d.get(k)], with [None] for Python's [None]. *)
Fixpoint get (k : string) (d : list (string * V)) : option V :=
  match d with
  | [] => None
  | (k', v) :: rest => if decide (k' = k) then Some v else get k rest
  end.

(** [k in d] *)
Definition contains (k : string) (d : list (string * V)) : bool :=
  match get k d with Some _ => true | None => false end.

(** [d[k] = v] *)
Fixpoint set (k : string) (v : V) (d : list (string * V)) : list (string * V) :=
  match d with
  | [] => [(k, v)]
  | (k', v') :: rest =>
      if decide (k' = k) then (k', v) :: rest else (k', v') :: set k v rest
  end.

(** [d[k]] *)
Definition getitem (k : string) (d : list (string * V)) : result V :=
  match get k d with
  | Some v => Ok v
  | None => Raise (Exn KeyError ("'" +:+ k +:+ "'"))
  end.

Definition keys (d : list (string * V)) : list string := d.*1.
End ops.
End Dict.

(** ** JSON values *)

#[warnings="-register-all"]
Inductive json : Type :=
| JNull
| JBool (b : bool)
| JInt (n : Z)
| JFloat (lit : string)
| JStr (s : string)
| JList (xs : list json)
| JDict (kvs : list (string * json)).

(** [type(v).__name__] *)
Definition type_name (v : json) : string :=
  match v with
  | JNull => "NoneType"
  | JBool _ => "bool"
  | JInt _ => "int"
  | JFloat _ => "float"
  | JStr _ => "str"
  | JList _ => "list"
  | JDict _ => "dict"
  end.

Definition no_attribute (v : json) (attr : string) : exn :=
  Exn AttributeError
      ("'" +:+ type_name v +:+ "' object has no attribute '" +:+ attr +:+ "'").

Definition not_iterable (v : json) : exn :=
  Exn TypeError ("'" +:+ type_name v +:+ "' object is not iterable").

(** The items a [for] loop over [v] visits: the elements of a list, the
    keys of a dict, the characters of a string (one-character strings;
    the program only ever asks such an item for its [get]). *)
Definition py_iter (v : json) : result (list json) :=
  match v with
  | JList xs => Ok xs
  | JDict kvs => Ok (JStr <$> Dict.keys kvs)
  | JStr s => Ok ((λ c, JStr (String c "")) <$> String.list_ascii_of_string s)
  | _ => Raise (not_iterable v)
  end.

(** [v.append(x)] *)
Definition py_append (v : json) (x : json) : result json :=
  match v with
  | JList xs => Ok (JList (xs ++ [x]))
  | _ => Raise (no_attribute v "append")
  end.

(** ** Strings *)

(** [s.split(sep)] for a one-character separator. *)
Fixpoint split (sep : ascii) (s : string) : list string :=
  match s with
  | "" => [""]
  | String c rest =>
      if decide (c = sep) then "" :: split sep rest
      else match split sep rest with
           | [] => [String c ""]
           | piece :: pieces => String c piece :: pieces
           end
  end.

(** [c in s] *)
Fixpoint occurs (c : ascii) (s : string) : bool :=
  match s with
  | "" => false
  | String c' rest => if decide (c' = c) then true else occurs c rest
  end.

(** One lower-case hexadecimal digit. *)
Definition hex_digit (n : nat) : ascii :=
  match n with
  | 0 => "0" | 1 => "1" | 2 => "2" | 3 => "3" | 4 => "4" | 5 => "5" | 6 => "6"
  | 7 => "7" | 8 => "8" | 9 => "9" | 10 => "a" | 11 => "b" | 12 => "c"
  | 13 => "d" | 14 => "e" | _ => "f"
  end%char.

Definition backslash : ascii := ascii_of_nat 92.
Definition double_quote : ascii := ascii_of_nat 34.

(** One character of [repr(s)], written between the quotes [quote]. *)
Definition repr_char (quote c : ascii) : string :=
  let n := nat_of_ascii c in
  if bool_decide (c = quote ∨ c = backslash) then String backslash (String c "")
  else if bool_decide (n = 9) then String backslash "t"
  else if bool_decide (n = 10) then String backslash "n"
  else if bool_decide (n = 13) then String backslash "r"
  else if bool_decide (n < 32 ∨ n = 127) then
    String backslash
      (String "x" (String (hex_digit (Nat.div n 16))
                     (String (hex_digit (Nat.modulo n 16)) "")))
  else String c "".

Fixpoint repr_chars (quote : ascii) (s : string) : string :=
  match s with
  | "" => ""
  | String c rest => repr_char quote c +:+ repr_chars quote rest
  end.

(** [repr(s)]: between double quotes when [s] holds a single quote and
    no double quote, between single quotes otherwise; the quote, the
    backslash and the control characters are escaped.  The bytes of a
    character outside ASCII are left as they are, as Python leaves a
    printable character. *)
Definition py_repr (s : string) : string :=
  let quote :=
    if occurs "'" s && negb (occurs double_quote s) then double_quote else "'"%char in
  String quote (repr_chars quote s +:+ String quote "").

(** [xs[-1]] *)
Definition index_last {A} (xs : list A) : result A :=
  match last xs with
  | Some x => Ok x
  | None => Raise (Exn IndexError "list index out of range")
  end.

(** ** The mutation of the loaded document ([update_mcps], lines 10-23) *)

Section update.
Variables repo_url description : string.

(** [repo.get('url') == repo_url] on a dict [repo]: a value that is
    not a [str], or no value at all, is never equal to a [str]. *)
Definition url_matches (repo : list (string * json)) : bool :=
  match Dict.get "url" repo with
  | Some (JStr s) => bool_decide (s = repo_url)
  | _ => false
  end.

(** The body of the loop on one item: the item and [entry_exists]
    after the step. *)
Definition visit (repo : json) (entry_exists : bool) : result (json * bool) :=
  match repo with
  | JDict kvs =>
      if url_matches kvs
      then Ok (JDict (Dict.set "description" (JStr description) kvs), true)
      else Ok (repo, entry_exists)
  | _ => Raise (no_attribute repo "get")
  end.

(** [for repo in ...]: the items after the loop and the final value of
    [entry_exists]. *)
Fixpoint for_repos (repos : list json) (entry_exists : bool)
  : result (list json * bool) :=
  match repos with
  | [] => Ok ([], entry_exists)
  | repo :: rest =>
      '(repo', entry_exists) ← visit repo entry_exists;
      '(rest', entry_exists) ← for_repos rest entry_exists;
      Ok (repo' :: rest', entry_exists)
  end.

Definition new_entry (repo_name : string) : json :=
  JDict [("name", JStr repo_name); ("url", JStr repo_url);
         ("description", JStr description)].

Definition update_data (data : json) : result json :=
  match data with
  | JDict fields =>
      (* for repo in data.get('mcpRepos', []) *)
      items ← py_iter (default (JList []) (Dict.get "mcpRepos" fields));
      '(items', entry_exists) ← for_repos items false;
      (* the dicts the loop wrote to are the elements of data['mcpRepos'] *)
      let fields :=
        match Dict.get "mcpRepos" fields with
        | Some (JList _) => Dict.set "mcpRepos" (JList items') fields
        | _ => fields
        end in
      if negb entry_exists then
        repo_name ← index_last (split "/"%char repo_url);
        let fields :=
          if negb (Dict.contains "mcpRepos" fields)
          then Dict.set "mcpRepos" (JList []) fields
          else fields in
        repos ← Dict.getitem "mcpRepos" fields;
        repos ← py_append repos (new_entry repo_name);
        Ok (JDict (Dict.set "mcpRepos" repos fields))
      else Ok (JDict fields)
  | _ => Raise (no_attribute data "get")
  end.
End update.

(** ** Files and the standard streams *)

(** What a file holds, seen through [json.load]. *)
Inductive content : Type :=
| Text (v : json)      (* [json.load] returns [v] *)
| Garbled (e : exn).   (* reading or [json.load] raises [e] *)

(** What [open(path, 'w')] followed by [json.dump] does to a file. *)
Inductive write_mode : Type :=
| Writable
| OpenFails (e : exn)                    (* [open] raises, the file is untouched *)
| DumpFails (e : exn) (rest : content).  (* truncated, then the write raises *)

Record file : Type :=
  File { f_open_r : option exn; f_content : content; f_write : write_mode }.

Record world : Type :=
  World { fs : gmap string file; stdout : list string; stderr : list string }.

Definition io (A : Type) : Type := world → result A * world.

#[export] Instance io_ret : MRet io := fun A a w => (Ok a, w).
#[export] Instance io_bind : MBind io := fun A B f m w =>
  match m w with
  | (Ok a, w') => f a w'
  | (Raise e, w') => (Raise e, w')
  end.

Definition lift {A} (r : result A) : io A := fun w => (r, w).

Definition with_fs (m : gmap string file) (w : world) : world :=
  World m (stdout w) (stderr w).

(** [print(line)] and [print(line, file=sys.stderr)] *)
Definition print (line : string) (w : world) : world :=
  World (fs w) (stdout w ++ [line]) (stderr w).
Definition eprint (line : string) (w : world) : world :=
  World (fs w) (stdout w) (stderr w ++ [line]).

(** [with open(path, 'r') as fin: data = json.load(fin)].  A path that
    is not in the file system gives [FileNotFoundError], whose text ends
    with [repr(path)]. *)
Definition open_load (path : string) : io json := fun w =>
  match fs w !! path with
  | None =>
      (Raise (Exn FileNotFoundError
                  ("[Errno 2] No such file or directory: " +:+ py_repr path)), w)
  | Some f =>
      match f_open_r f with
      | Some e => (Raise e, w)
      | None =>
          match f_content f with
          | Text v => (Ok v, w)
          | Garbled e => (Raise e, w)
          end
      end
  end.

(** [with open(path, 'w') as fout: json.dump(data, fout, indent=2)].
    [open] creates a file that is not there; [update_mcps] never gets
    there, it has read the file before. *)
Definition open_dump (path : string) (data : json) : io unit := fun w =>
  match fs w !! path with
  | None =>
      (Ok (), with_fs (<[path := File None (Text data) Writable]> (fs w)) w)
  | Some f =>
      match f_write f with
      | Writable =>
          (Ok (), with_fs (<[path := File (f_open_r f) (Text data) Writable]> (fs w)) w)
      | OpenFails e => (Raise e, w)
      | DumpFails e rest =>
          (Raise e,
           with_fs (<[path := File (f_open_r f) rest (DumpFails e rest)]> (fs w)) w)
      end
  end.

(** ** [update_mcps] *)

(** The body of the [try] block. *)
Definition update_mcps_try (json_file repo_url description : string) : io unit :=
  data ← open_load json_file;
  data ← lift (update_data repo_url description data);
  open_dump json_file data.

Definition update_mcps (json_file repo_url description : string) (w : world)
  : bool * world :=
  match update_mcps_try json_file repo_url description w with
  | (Ok _, w') => (true, w')
  | (Raise e, w') =>
      (false, eprint ("Error updating JSON file: " +:+ exn_str e) w')
  end.

(** ** The command line *)

Definition usage : string :=
  "Usage: python mcps.py JSON_FILE REPO_URL DESCRIPTION".

(** The script run with [sys.argv = argv]: the exit status and the world
    it leaves.  An exception that reaches the top level ends the process
    with status 1; the test on [len(sys.argv)] keeps [sys.argv[3]] in
    range, so the last branch is never taken. *)
Definition main (argv : list string) (w : world) : nat * world :=
  if bool_decide (length argv < 4) then (1, print usage w)
  else
    match argv !! 1, argv !! 2, argv !! 3 with
    | Some json_file, Some repo_url, Some description =>
        let '(success, w') := update_mcps json_file repo_url description w in
        if negb success then (1, w') else (0, w')
    | _, _, _ => (1, eprint "IndexError: list index out of range" w)
    end.

(** A world with one readable, writable file holding [data]. *)
Definition disk (path : string) (data : json) : world :=
  World {[ path := File None (Text data) Writable ]} [] [].

(** ** Predicates used to state the properties *)

Definition is_dict (v : json) : bool :=
  match v with JDict _ => true | _ => false end.

Definition is_list (v : json) : bool :=
  match v with JList _ => true | _ => false end.

(** The entry [repo] is matched by the loop. *)
Definition matches (repo_url : string) (repo : json) : bool :=
  match repo with
  | JDict kvs => url_matches repo_url kvs
  | _ => false
  end.

(** What the loop leaves of the entry [repo]. *)
Definition touch (repo_url description : string) (repo : json) : json :=
  match repo with
  | JDict kvs =>
      if url_matches repo_url kvs
      then JDict (Dict.set "description" (JStr description) kvs)
      else repo
  | _ => repo
  end.

(** [d.get(k)] on a JSON value that may not be a dict. *)
Definition field (k : string) (v : json) : option json :=
  match v with
  | JDict kvs => Dict.get k kvs
  | _ => None
  end.

(** The entry list of a document, empty when the field is missing. *)
Definition entries (fields : list (string * json)) : list json :=
  match Dict.get "mcpRepos" fields with
  | Some (JList repos) => repos
  | _ => []
  end.

(** The documents of the data model: the entry list is missing, or it
    is a list of JSON objects. *)
Definition well_formed (fields : list (string * json)) : bool :=
  match Dict.get "mcpRepos" fields with
  | None => true
  | Some (JList repos) => forallb is_dict repos
  | Some _ => false
  end.

(** [sep.join(pieces)] *)
Fixpoint join (sep : ascii) (pieces : list string) : string :=
  match pieces with
  | [] => ""
  | [piece] => piece
  | piece :: rest => piece +:+ String sep (join sep rest)
  end.

(** The name given to a new entry: the value of
    [repo_url.split('/')[-1]]. *)
Definition repo_name (repo_url : string) : string :=
  default "" (last (split "/"%char repo_url)).

(** The entry list a successful update of the list [repos] leaves: every
    entry as the loop left it, and the new entry after them when the loop
    matched none. *)
Definition updated_entries (repo_url description : string) (repos : list json)
  : list json :=
  (touch repo_url description <$> repos)
  ++ if existsb (matches repo_url) repos then []
     else [new_entry repo_url description (repo_name repo_url)].

(** [path] is a file that can be read and written and holds [data]. *)
Definition stores (w : world) (path : string) (data : json) : Prop :=
  fs w !! path = Some (File None (Text data) Writable).

(** The world after [data] was written to [path]. *)
Definition written (path : string) (data : json) (w : world) : world :=
  with_fs (<[path := File None (Text data) Writable]> (fs w)) w.

(** * Examples *)

Definition entry (name url description : string) : json :=
  JDict [("name", JStr name); ("url", JStr url); ("description", JStr description)].

(** Two entries share the url [https://h/o/a]. *)
Definition shared_url : list (string * json) :=
  [("version", JInt 1);
   ("mcpRepos",
    JList [entry "a" "https://h/o/a" "old"; entry "b" "https://h/o/b" "kept";
           entry "a2" "https://h/o/a" "stale"])].

Definition two_entries : list (string * json) :=
  [("mcpRepos",
    JList [entry "a" "https://h/o/a" "old"; entry "b" "https://h/o/b" "kept"]);
   ("version", JInt 1)].

Example update_empty_list :
  update_data "https://x/y/z" "desc" (JDict [("mcpRepos", JList [])])
  = Ok (JDict [("mcpRepos",
                JList [JDict [("name", JStr "z"); ("url", JStr "https://x/y/z");
                              ("description", JStr "desc")]])]).
Proof. reflexivity. Qed.

Example update_no_key :
  update_data "https://x/y/z" "desc" (JDict [])
  = Ok (JDict [("mcpRepos",
                JList [JDict [("name", JStr "z"); ("url", JStr "https://x/y/z");
                              ("description", JStr "desc")]])]).
Proof. reflexivity. Qed.

Example split_url :
  split "/" "https://x/y/z" = ["https:"; ""; "x"; "y"; "z"].
Proof. reflexivity. Qed.

Example repr_plain : py_repr "mcps.json" = "'mcps.json'".
Proof. reflexivity. Qed.

Example repr_apostrophe :
  py_repr "it's.json" = String double_quote ("it's.json" +:+ String double_quote "").
Proof. reflexivity. Qed.

Example repr_backslash :
  py_repr (String "a" (String backslash "b"))
  = String "'" (String "a" (String backslash (String backslash "b'"))).
Proof. reflexivity. Qed.

Example missing_file :
  update_mcps "none.json" "u" "d" (World ∅ [] [])
  = (false,
     World ∅ []
       ["Error updating JSON file: [Errno 2] No such file or directory: 'none.json'"]).
Proof. reflexivity. Qed.

Example repo_name_path : repo_name "https://example.com/org/my-repo" = "my-repo".
Proof. reflexivity. Qed.

Example repo_name_plain : repo_name "toolname" = "toolname".
Proof. reflexivity. Qed.

(** An element of the entry list that is no JSON object stops the loop,
    also after an entry was matched; nothing is written back. *)
Example update_stray_element :
  update_data "u" "d" (JDict [("mcpRepos", JList [entry "n" "u" "old"; JInt 5])])
  = Raise (Exn AttributeError "'int' object has no attribute 'get'").
Proof. reflexivity. Qed.

Example update_not_an_object :
  update_data "u" "d" (JList [])
  = Raise (Exn AttributeError "'list' object has no attribute 'get'").
Proof. reflexivity. Qed.

Example update_empty_dict_for_list :
  update_data "u" "d" (JDict [("mcpRepos", JDict [])])
  = Raise (Exn AttributeError "'dict' object has no attribute 'append'").
Proof. reflexivity. Qed.

Example scenario_empty_list :
  update_mcps "mcps.json" "https://x/y/z" "desc"
              (disk "mcps.json" (JDict [("mcpRepos", JList [])]))
  = (true,
     disk "mcps.json"
          (JDict [("mcpRepos",
                   JList [JDict [("name", JStr "z"); ("url", JStr "https://x/y/z");
                                 ("description", JStr "desc")]])])).
Proof. by vm_compute. Qed.

(** * Dicts *)

Module DictFacts.
Section facts.
Context {V : Type}.
Implicit Types (d : list (string * V)) (k : string) (v : V).

Lemma get_set_eq k v d : Dict.get k (Dict.set k v d) = Some v.
Proof.
  induction d as [|[k' v'] d IH]; cbn.
  - by rewrite decide_True.
  - destruct (decide (k' = k)) as [->|Hne]; cbn.
    + by rewrite decide_True.
    + by rewrite decide_False.
Qed.

Lemma get_set_ne k k' v d : k ≠ k' → Dict.get k' (Dict.set k v d) = Dict.get k' d.
Proof.
  intros Hne. induction d as [|[k0 v0] d IH]; cbn.
  - by rewrite decide_False.
  - destruct (decide (k0 = k)) as [->|Hk]; cbn.
    + by rewrite !decide_False.
    + by rewrite IH.
Qed.

Lemma set_set k v v' d : Dict.set k v (Dict.set k v' d) = Dict.set k v d.
Proof.
  induction d as [|[k0 v0] d IH]; cbn.
  - by rewrite decide_True.
  - destruct (decide (k0 = k)) as [->|Hk]; cbn.
    + by rewrite decide_True.
    + by rewrite decide_False, IH.
Qed.

Lemma set_same k v d : Dict.get k d = Some v → Dict.set k v d = d.
Proof.
  induction d as [|[k0 v0] d IH]; cbn; [done|].
  destruct (decide (k0 = k)) as [->|Hk]; intros H.
  - by simplify_eq.
  - by rewrite IH.
Qed.

Lemma set_fresh k v d : Dict.get k d = None → Dict.set k v d = d ++ [(k, v)].
Proof.
  induction d as [|[k0 v0] d IH]; cbn; [done|].
  destruct (decide (k0 = k)) as [->|Hk]; intros H; [done|].
  by rewrite IH.
Qed.

Lemma keys_set_present k v d :
  is_Some (Dict.get k d) → Dict.keys (Dict.set k v d) = Dict.keys d.
Proof.
  unfold Dict.keys.
  induction d as [|[k0 v0] d IH]; cbn; [by intros [? ?]|].
  destruct (decide (k0 = k)) as [->|Hk]; intros H; cbn; [done|].
  by rewrite IH.
Qed.

Lemma contains_set k v d : Dict.contains k (Dict.set k v d) = true.
Proof. unfold Dict.contains. by rewrite get_set_eq. Qed.

Lemma contains_get k d : Dict.contains k d = true ↔ is_Some (Dict.get k d).
Proof.
  unfold Dict.contains. by destruct (Dict.get k d); split.
Qed.
End facts.
End DictFacts.

(** * [split] *)

Lemma split_nonempty sep s : split sep s ≠ [].
Proof.
  destruct s as [|c s]; cbn; [done|].
  destruct (decide (c = sep)); [done|].
  by destruct (split sep s).
Qed.

Lemma join_split sep s : join sep (split sep s) = s.
Proof.
  induction s as [|c s IH]; cbn; [done|].
  destruct (decide (c = sep)) as [->|Hc].
  - pose proof (split_nonempty sep s) as Hne.
    destruct (split sep s) as [|piece pieces]; [done|].
    cbn in *. by rewrite IH.
  - destruct (split sep s) as [|piece pieces] eqn:E.
    + by destruct (split_nonempty sep s).
    + rewrite <- IH. by destruct pieces.
Qed.

Lemma split_pieces sep s : Forall (λ piece, occurs sep piece = false) (split sep s).
Proof.
  induction s as [|c s IH]; cbn.
  - by constructor.
  - destruct (decide (c = sep)) as [->|Hc].
    + by constructor.
    + destruct (split sep s) as [|piece pieces].
      * constructor; [|done]. cbn. by rewrite decide_False.
      * inversion IH as [|? ? Hpiece Hpieces]; subst.
        constructor; [|done]. cbn. by rewrite decide_False.
Qed.

Lemma append_nil (b : string) : "" +:+ b = b.
Proof. reflexivity. Qed.

Lemma append_cons (x : ascii) (a b : string) : String x a +:+ b = String x (a +:+ b).
Proof. reflexivity. Qed.

Lemma append_assoc (a b c : string) : (a +:+ b) +:+ c = a +:+ (b +:+ c).
Proof.
  induction a as [|x a IH]; [done|].
  by rewrite !append_cons, IH.
Qed.

Lemma join_snoc sep pieces piece :
  pieces ≠ [] → join sep (pieces ++ [piece]) = join sep pieces +:+ String sep piece.
Proof.
  induction pieces as [|p0 pieces IH]; [done|]. intros _.
  destruct pieces as [|p1 pieces]; [done|].
  change (join sep ((p0 :: p1 :: pieces) ++ [piece]))
    with (p0 +:+ String sep (join sep ((p1 :: pieces) ++ [piece]))).
  rewrite IH by done.
  change (join sep (p0 :: p1 :: pieces))
    with (p0 +:+ String sep (join sep (p1 :: pieces))).
  by rewrite append_assoc.
Qed.

Lemma occurs_app sep a b : occurs sep (a +:+ String sep b) = true.
Proof.
  induction a as [|c a IH].
  - rewrite append_nil. cbn. by rewrite decide_True.
  - rewrite append_cons. cbn. by destruct (decide (c = sep)).
Qed.

Lemma occurs_none_split sep s : occurs sep s = false → split sep s = [s].
Proof.
  induction s as [|c s IH]; cbn; [done|].
  destruct (decide (c = sep)); [done|].
  intros H. by rewrite IH.
Qed.

(** The last piece holds no separator; it is the whole string when the
    string holds none, and what follows the last separator otherwise. *)
Lemma last_split sep s :
  ∃ name, last (split sep s) = Some name
    ∧ occurs sep name = false
    ∧ (occurs sep s = false → name = s)
    ∧ (occurs sep s = true → ∃ before, s = before +:+ String sep name).
Proof.
  destruct (last (split sep s)) as [name|] eqn:E.
  2: { apply last_None in E. by destruct (split_nonempty sep s). }
  exists name. split; [done|].
  pose proof (split_pieces sep s) as Hp.
  pose proof (join_split sep s) as Hj.
  apply last_Some in E as [pieces E]. rewrite E in Hp, Hj.
  apply Forall_app in Hp as [_ Hp]. inversion Hp as [|? ? Hname _]; subst.
  split; [done|].
  destruct pieces as [|p0 pieces].
  - cbn in *. split; [done|]. intros Hs. congruence.
  - rewrite join_snoc in * by done. split.
    + intros Hs. by rewrite occurs_app in Hs.
    + intros _. by eexists.
Qed.

Lemma last_split_after sep before s :
  last (split sep (before +:+ String sep s)) = last (split sep s).
Proof.
  induction before as [|c before IH];
    [rewrite append_nil|rewrite append_cons]; cbn.
  - rewrite decide_True by done.
    pose proof (split_nonempty sep s). by destruct (split sep s).
  - destruct (decide (c = sep)) as [->|Hc].
    + rewrite <- IH.
      pose proof (split_nonempty sep (before +:+ String sep s)).
      by destruct (split sep (before +:+ String sep s)).
    + rewrite <- IH.
      pose proof (split_nonempty sep (before +:+ String sep s)) as Hne.
      destruct (split sep (before +:+ String sep s)) as [|p0 [|p1 ps]] eqn:E;
        [done| |done].
      exfalso.
      pose proof (join_split sep (before +:+ String sep s)) as Hj.
      pose proof (split_pieces sep (before +:+ String sep s)) as Hp.
      rewrite E in Hj, Hp. cbn in Hj. subst p0.
      inversion Hp as [|? ? Ho _]; subst. by rewrite occurs_app in Ho.
Qed.

Lemma index_last_split url : index_last (split "/"%char url) = Ok (repo_name url).
Proof.
  unfold index_last, repo_name.
  destruct (last_split "/"%char url) as (name & -> & _). done.
Qed.

(** * The loop and the mutation *)

Section update_facts.
Variables repo_url description : string.

Lemma for_repos_dicts repos b :
  Forall (λ r, is_dict r) repos →
  for_repos repo_url description repos b
  = Ok (touch repo_url description <$> repos,
        b || existsb (matches repo_url) repos).
Proof.
  intros Hd. revert b.
  induction Hd as [|repo repos Hrepo _ IH]; intros b; cbn.
  - by rewrite orb_false_r.
  - destruct repo as [| | | | | |kvs]; try done. cbn.
    destruct (url_matches repo_url kvs); cbn; rewrite IH; cbn.
    + by rewrite orb_true_r.
    + done.
Qed.

Lemma for_repos_ok repos b r :
  for_repos repo_url description repos b = Ok r → Forall (λ r, is_dict r) repos.
Proof.
  revert b r. induction repos as [|repo repos IH]; intros b r; [by constructor|].
  cbn. destruct repo as [| | | | | |kvs]; try done. cbn.
  destruct (url_matches repo_url kvs); cbn;
    destruct (for_repos _ _ repos _) as [[rest' b']|e] eqn:E; try done;
    intros _; constructor; try done; by eapply IH.
Qed.

(** The document after a successful update, in closed form. *)
Lemma update_data_list fields repos :
  Dict.get "mcpRepos" fields = Some (JList repos) →
  Forall (λ r, is_dict r) repos →
  update_data repo_url description (JDict fields)
  = Ok (JDict (Dict.set "mcpRepos"
                 (JList ((touch repo_url description <$> repos)
                         ++ if existsb (matches repo_url) repos then []
                            else [new_entry repo_url description (repo_name repo_url)]))
                 fields)).
Proof.
  intros Hget Hd. unfold update_data. rewrite Hget. cbn.
  rewrite (for_repos_dicts _ _ Hd). cbn.
  destruct (existsb (matches repo_url) repos); cbn.
  - by rewrite app_nil_r.
  - rewrite index_last_split. cbn.
    rewrite DictFacts.contains_set. cbn.
    unfold Dict.getitem. rewrite DictFacts.get_set_eq. cbn.
    by rewrite DictFacts.set_set.
Qed.

Lemma update_data_absent fields :
  Dict.get "mcpRepos" fields = None →
  update_data repo_url description (JDict fields)
  = Ok (JDict (fields
               ++ [("mcpRepos",
                    JList [new_entry repo_url description (repo_name repo_url)])])).
Proof.
  intros Hget. unfold update_data. rewrite Hget. cbn.
  rewrite index_last_split. cbn.
  unfold Dict.contains. rewrite Hget. cbn.
  unfold Dict.getitem. rewrite DictFacts.get_set_eq. cbn.
  by rewrite DictFacts.set_set, DictFacts.set_fresh.
Qed.

(** The update succeeds on JSON objects whose entry list is missing or
    is a list of JSON objects, and on nothing else. *)
Lemma update_data_ok_inv data data' :
  update_data repo_url description data = Ok data' →
  ∃ fields, data = JDict fields
    ∧ (Dict.get "mcpRepos" fields = None
       ∨ ∃ repos, Dict.get "mcpRepos" fields = Some (JList repos)
                  ∧ Forall (λ r, is_dict r) repos).
Proof.
  destruct data as [| | | | | |fields]; try done.
  intros H. exists fields. split; [done|].
  unfold update_data in H.
  destruct (Dict.get "mcpRepos" fields) as [v|] eqn:Hget; [|by left].
  right. cbn in H.
  destruct v as [| | | | s |repos|kvs]; try done.
  - (* a string: its characters are no dicts, and it has no append *)
    exfalso. cbn in H. destruct s as [|c s]; cbn in H; [|done].
    rewrite index_last_split in H. cbn in H.
    unfold Dict.contains, Dict.getitem in H.
    by repeat (rewrite Hget in H; cbn in H).
  - exists repos. split; [done|]. cbn in H.
    destruct (for_repos _ _ repos false) as [[items' b]|e] eqn:E; [|done].
    by eapply for_repos_ok.
  - (* a dict: its keys are no dicts, and it has no append *)
    exfalso. cbn in H. destruct kvs as [|[k v] kvs]; cbn in H; [|done].
    rewrite index_last_split in H. cbn in H.
    unfold Dict.contains, Dict.getitem in H.
    by repeat (rewrite Hget in H; cbn in H).
Qed.
End update_facts.

(** * [update_mcps] on a file that can be read and written *)

Lemma update_mcps_stores w json_file repo_url description data data' :
  stores w json_file data →
  update_data repo_url description data = Ok data' →
  update_mcps json_file repo_url description w = (true, written json_file data' w).
Proof.
  unfold stores, update_mcps, update_mcps_try, written. intros Hf Hu.
  unfold mbind, io_bind, open_load, lift, open_dump.
  by rewrite Hf; cbn; rewrite Hu, Hf.
Qed.

Lemma update_mcps_raises w json_file repo_url description data e :
  stores w json_file data →
  update_data repo_url description data = Raise e →
  update_mcps json_file repo_url description w
  = (false, eprint ("Error updating JSON file: " +:+ exn_str e) w).
Proof.
  unfold stores, update_mcps, update_mcps_try. intros Hf Hu.
  unfold mbind, io_bind, open_load, lift.
  by rewrite Hf; cbn; rewrite Hu.
Qed.

Lemma update_mcps_true_inv w w' json_file repo_url description :
  update_mcps json_file repo_url description w = (true, w') →
  ∃ data data',
    stores w json_file data
    ∧ update_data repo_url description data = Ok data'
    ∧ w' = written json_file data' w.
Proof.
  unfold update_mcps, update_mcps_try, stores, written.
  unfold mbind, io_bind, open_load, lift, open_dump.
  destruct (fs w !! json_file) as [[[e0|] [data|e1] wr]|] eqn:Hf; cbn; try done.
  destruct (update_data repo_url description data) as [data'|e] eqn:Hu; [|done].
  rewrite Hf. cbn. destruct wr as [|e|e rest]; cbn; try done.
  intros [= <-]. by exists data, data'.
Qed.

(** * Entries and the loop's view of them *)

Section entry_facts.
Variables repo_url description : string.
Implicit Types (kvs : list (string * json)) (repos : list json).

Lemma url_matches_spec kvs :
  url_matches repo_url kvs = true ↔ Dict.get "url" kvs = Some (JStr repo_url).
Proof.
  unfold url_matches.
  destruct (Dict.get "url" kvs) as [[| | | |s| |]|]; try done.
  rewrite bool_decide_eq_true. split; congruence.
Qed.

Lemma url_matches_set_description kvs v :
  url_matches repo_url (Dict.set "description" v kvs) = url_matches repo_url kvs.
Proof. unfold url_matches. by rewrite DictFacts.get_set_ne. Qed.

Lemma is_dict_touch r : is_dict (touch repo_url description r) = is_dict r.
Proof.
  destruct r as [| | | | | |kvs]; try done. cbn.
  by destruct (url_matches repo_url kvs).
Qed.

Lemma matches_touch r : matches repo_url (touch repo_url description r) = matches repo_url r.
Proof.
  destruct r as [| | | | | |kvs]; try done. cbn.
  destruct (url_matches repo_url kvs) eqn:E; cbn; [|done].
  by rewrite url_matches_set_description.
Qed.

Lemma touch_touch r :
  touch repo_url description (touch repo_url description r)
  = touch repo_url description r.
Proof.
  destruct r as [| | | | | |kvs]; try done. cbn.
  destruct (url_matches repo_url kvs) eqn:E; cbn.
  - by rewrite url_matches_set_description, E, DictFacts.set_set.
  - by rewrite E.
Qed.

Lemma matches_new_entry name :
  matches repo_url (new_entry repo_url description name) = true.
Proof. unfold new_entry, matches. by apply url_matches_spec. Qed.

Lemma touch_new_entry name :
  touch repo_url description (new_entry repo_url description name)
  = new_entry repo_url description name.
Proof.
  pose proof (matches_new_entry name) as Hm.
  unfold new_entry, touch, matches in *. by rewrite Hm.
Qed.

Lemma touch_field r k :
  k ≠ "description" →
  field k (touch repo_url description r) = field k r.
Proof.
  intros Hk. destruct r as [| | | | | |kvs]; try done. cbn.
  destruct (url_matches repo_url kvs); [|done]. cbn.
  by rewrite DictFacts.get_set_ne.
Qed.

Lemma existsb_matches_touch repos :
  existsb (matches repo_url) (touch repo_url description <$> repos)
  = existsb (matches repo_url) repos.
Proof.
  induction repos as [|r repos IH]; cbn; [done|].
  by rewrite matches_touch, IH.
Qed.

Lemma existsb_matches_true repos i kvs :
  repos !! i = Some (JDict kvs) →
  Dict.get "url" kvs = Some (JStr repo_url) →
  existsb (matches repo_url) repos = true.
Proof.
  intros Hi Hurl. apply existsb_exists. exists (JDict kvs). split.
  - apply list_elem_of_In. by eapply list_elem_of_lookup_2.
  - by apply url_matches_spec.
Qed.

(** No entry has the given url: the loop changes nothing and finds
    nothing. *)
Lemma no_match repos :
  (∀ i kvs, repos !! i = Some (JDict kvs) →
            Dict.get "url" kvs ≠ Some (JStr repo_url)) →
  touch repo_url description <$> repos = repos
  ∧ existsb (matches repo_url) repos = false.
Proof.
  induction repos as [|r repos IH]; intros Hno; [done|].
  destruct IH as [IH1 IH2].
  { intros i kvs Hi. by apply (Hno (S i)). }
  cbn. rewrite IH1, IH2.
  destruct r as [| | | | | |kvs]; try done. cbn.
  destruct (url_matches repo_url kvs) eqn:E; [|done].
  apply url_matches_spec in E. by destruct (Hno 0 kvs).
Qed.

Lemma forallb_is_dict repos :
  forallb is_dict repos = true ↔ Forall (λ r, is_dict r) repos.
Proof.
  induction repos as [|r repos IH]; cbn.
  - split; [by constructor|done].
  - rewrite andb_true_iff, IH, Forall_cons. by rewrite Is_true_true.
Qed.

Lemma entries_set repos' fields :
  entries (Dict.set "mcpRepos" (JList repos') fields) = repos'.
Proof. unfold entries. by rewrite DictFacts.get_set_eq. Qed.

(** The document a successful update leaves. *)
Lemma update_data_well_formed fields :
  well_formed fields = true →
  update_data repo_url description (JDict fields)
  = Ok (JDict (Dict.set "mcpRepos"
                 (JList ((touch repo_url description <$> entries fields)
                         ++ if existsb (matches repo_url) (entries fields) then []
                            else [new_entry repo_url description (repo_name repo_url)]))
                 fields)).
Proof.
  unfold well_formed, entries.
  destruct (Dict.get "mcpRepos" fields) as [v|] eqn:Hget.
  - destruct v as [| | | | |repos|]; try done.
    intros Hd%forallb_is_dict. by apply update_data_list.
  - intros _. rewrite update_data_absent by done. cbn.
    by rewrite DictFacts.set_fresh.
Qed.

Lemma update_data_ok_well_formed data data' :
  update_data repo_url description data = Ok data' →
  ∃ fields, data = JDict fields ∧ well_formed fields = true.
Proof.
  intros (fields & -> & H)%update_data_ok_inv. exists fields. split; [done|].
  unfold well_formed. destruct H as [->|(repos & -> & Hd)]; [done|].
  by apply forallb_is_dict.
Qed.

Lemma update_data_is_ok fields :
is_ok (update_data repo_url description (JDict fields)) = well_formed fields.
Proof.
destruct (well_formed fields) eqn:Hwf.
- by rewrite update_data_well_formed.
- destruct (update_data repo_url description (JDict fields)) eqn:E; [|done].
  apply update_data_ok_well_formed in E as (fields0 & [= <-] & Hwf0). congruence.
Qed.

Lemma update_data_ill_formed data :
  (∀ fields, data = JDict fields → well_formed fields = false) →
  ∃ e, update_data repo_url description data = Raise e.
Proof.
  intros Hbad.
  destruct (update_data repo_url description data) as [data'|e] eqn:E; [|by eexists].
  apply update_data_ok_well_formed in E as (fields & -> & Hwf).
  rewrite (Hbad fields) in Hwf; done.
Qed.
End entry_facts.

(** * Properties of the specification *)

(** C1. On a document of the data model whose entry list holds an entry
    with the given url, [update_mcps] succeeds and writes back the document
    with an entry list of the same length (nothing is appended) in which
    every entry with that url, however many there are, has the given
    description at its own position, and every other entry is as it
    was. *)
Theorem update_overwrites_every_match w json_file repo_url description fields :
  stores w json_file (JDict fields) →
  well_formed fields = true →
  (∃ i kvs, entries fields !! i = Some (JDict kvs)
            ∧ Dict.get "url" kvs = Some (JStr repo_url)) →
  ∃ repos',
    update_mcps json_file repo_url description w
    = (true, written json_file (JDict (Dict.set "mcpRepos" (JList repos') fields)) w)
    ∧ length repos' = length (entries fields)
    ∧ (∀ i kvs,
         entries fields !! i = Some (JDict kvs) →
         Dict.get "url" kvs = Some (JStr repo_url) →
         repos' !! i = Some (JDict (Dict.set "description" (JStr description) kvs))
         ∧ Dict.get "description" (Dict.set "description" (JStr description) kvs)
           = Some (JStr description))
    ∧ (∀ i kvs,
         entries fields !! i = Some (JDict kvs) →
         Dict.get "url" kvs ≠ Some (JStr repo_url) →
         repos' !! i = Some (JDict kvs)).
Proof.
  intros Hst Hwf (i0 & kvs0 & Hi0 & Hurl0).
  exists (touch repo_url description <$> entries fields).
  split; [|split; [|split]].
  - eapply update_mcps_stores; [done|].
    rewrite update_data_well_formed by done.
    rewrite (existsb_matches_true _ _ _ _ Hi0 Hurl0).
    by rewrite app_nil_r.
  - by rewrite length_fmap.
  - intros i kvs Hi Hurl. rewrite list_lookup_fmap, Hi. cbn.
    apply url_matches_spec in Hurl. rewrite Hurl.
    by rewrite DictFacts.get_set_eq.
  - intros i kvs Hi Hurl. rewrite list_lookup_fmap, Hi. cbn.
    destruct (url_matches repo_url kvs) eqn:E; [|done].
    by apply url_matches_spec in E.
Qed.

(** C2. On a document without the entry-list field, [update_mcps] succeeds
    and writes back the document with the field added after the others,
    holding exactly one entry: the derived name, the given url and the
    given description. *)
Theorem update_creates_list w json_file repo_url description fields :
  stores w json_file (JDict fields) →
  Dict.get "mcpRepos" fields = None →
  let created :=
    JDict [("name", JStr (repo_name repo_url)); ("url", JStr repo_url);
           ("description", JStr description)] in
  let fields' := fields ++ [("mcpRepos", JList [created])] in
  update_mcps json_file repo_url description w
  = (true, written json_file (JDict fields') w)
  ∧ Dict.get "mcpRepos" fields' = Some (JList [created])
  ∧ entries fields' = [created]
  ∧ (∀ k, k ≠ "mcpRepos" → Dict.get k fields' = Dict.get k fields).
Proof.
  intros Hst Hget created fields'.
  assert (fields' = Dict.set "mcpRepos" (JList [created]) fields) as Hset.
  { subst fields'. by rewrite DictFacts.set_fresh. }
  split; [|split; [|split]].
  - eapply update_mcps_stores; [done|]. by apply update_data_absent.
  - rewrite Hset. apply DictFacts.get_set_eq.
  - rewrite Hset. apply entries_set.
  - intros k Hk. rewrite Hset. by apply DictFacts.get_set_ne.
Qed.

(** C3. On a document of the data model in which exactly one entry, at
    position [i], has the given url, [update_mcps] writes back the document
    in which that entry's description is the given one and nothing else
    differs: the entry keeps every other key with its value (its name and
    url among them), the other entries are the same, and the document has
    the same keys, with the same values outside the entry list. *)
Theorem update_single_match_frame w json_file repo_url description fields i kvs :
  stores w json_file (JDict fields) →
  well_formed fields = true →
  entries fields !! i = Some (JDict kvs) →
  Dict.get "url" kvs = Some (JStr repo_url) →
  (∀ j kvs', j ≠ i → entries fields !! j = Some (JDict kvs') →
             Dict.get "url" kvs' ≠ Some (JStr repo_url)) →
  let kvs' := Dict.set "description" (JStr description) kvs in
  let repos' := <[i := JDict kvs']> (entries fields) in
  let fields' := Dict.set "mcpRepos" (JList repos') fields in
  update_mcps json_file repo_url description w
  = (true, written json_file (JDict fields') w)
  ∧ (∀ k, k ≠ "description" → Dict.get k kvs' = Dict.get k kvs)
  ∧ Dict.get "name" kvs' = Dict.get "name" kvs
  ∧ Dict.get "url" kvs' = Dict.get "url" kvs
  ∧ (∀ j, j ≠ i → repos' !! j = entries fields !! j)
  ∧ length repos' = length (entries fields)
  ∧ (∀ k, k ≠ "mcpRepos" → Dict.get k fields' = Dict.get k fields)
  ∧ Dict.keys fields' = Dict.keys fields.
Proof.
  intros Hst Hwf Hi Hurl Huniq kvs' repos' fields'.
  assert (touch repo_url description <$> entries fields = repos') as Ht.
  { apply list_eq. intros j. rewrite list_lookup_fmap. subst repos'.
    destruct (decide (j = i)) as [->|Hj].
    - rewrite list_lookup_insert_eq by (by eapply lookup_lt_Some).
      rewrite Hi. cbn. apply url_matches_spec in Hurl. by rewrite Hurl.
    - rewrite list_lookup_insert_ne by done.
      destruct (entries fields !! j) as [r|] eqn:Hr; [|done]. cbn. f_equal.
      destruct r as [| | | | | |kvs0]; try done. cbn.
      destruct (url_matches repo_url kvs0) eqn:E; [|done].
      apply url_matches_spec in E. by destruct (Huniq j kvs0). }
  assert (is_Some (Dict.get "mcpRepos" fields)) as Hsome.
  { unfold entries in Hi. destruct (Dict.get "mcpRepos" fields); [by eexists|].
    by rewrite lookup_nil in Hi. }
  repeat split.
  - eapply update_mcps_stores; [done|].
    rewrite update_data_well_formed by done.
    rewrite (existsb_matches_true _ _ _ _ Hi Hurl), Ht.
    by rewrite app_nil_r.
  - intros k Hk. by apply DictFacts.get_set_ne.
  - by apply DictFacts.get_set_ne.
  - by apply DictFacts.get_set_ne.
  - intros j Hj. by apply list_lookup_insert_ne.
  - apply length_insert.
  - intros k Hk. by apply DictFacts.get_set_ne.
  - by apply DictFacts.keys_set_present.
Qed.

(** C4. When no entry of a document of the data model has the given url,
    [update_mcps] appends one entry whose url and description are the
    arguments and whose name, [repo_url.split('/')[-1]], holds no ['/'], is
    the whole url when the url holds no ['/'], and is what follows the last
    ['/'] of the url otherwise. *)
Theorem new_entry_name w json_file repo_url description fields :
  stores w json_file (JDict fields) →
  well_formed fields = true →
  (∀ i kvs, entries fields !! i = Some (JDict kvs) →
            Dict.get "url" kvs ≠ Some (JStr repo_url)) →
  let name := repo_name repo_url in
  update_mcps json_file repo_url description w
  = (true,
     written json_file
       (JDict (Dict.set "mcpRepos"
                 (JList (entries fields
                         ++ [JDict [("name", JStr name); ("url", JStr repo_url);
                                    ("description", JStr description)]]))
                 fields)) w)
  ∧ occurs "/" name = false
  ∧ (occurs "/" repo_url = false → name = repo_url)
  ∧ (occurs "/" repo_url = true → ∃ before, repo_url = before +:+ "/" +:+ name).
Proof.
  intros Hst Hwf Hno name.
  destruct (no_match repo_url description _ Hno) as [Ht He].
  destruct (last_split "/" repo_url) as (name' & Hlast & Hname & Hwhole & Hafter).
  assert (name = name') as ->.
  { subst name. unfold repo_name. by rewrite Hlast. }
  split; [|done].
  eapply update_mcps_stores; [done|].
  rewrite update_data_well_formed by done.
  rewrite Ht, He. unfold new_entry, repo_name. by rewrite Hlast.
Qed.

(** C10. When the url ends with ['/'] and no entry of a document of the
    data model has it, the entry [update_mcps] appends has the empty string
    as its name. *)
Theorem trailing_separator_empty_name w json_file before description fields :
  stores w json_file (JDict fields) →
  well_formed fields = true →
  (∀ i kvs, entries fields !! i = Some (JDict kvs) →
            Dict.get "url" kvs ≠ Some (JStr (before +:+ "/"))) →
  update_mcps json_file (before +:+ "/") description w
  = (true,
     written json_file
       (JDict (Dict.set "mcpRepos"
                 (JList (entries fields
                         ++ [JDict [("name", JStr ""); ("url", JStr (before +:+ "/"));
                                    ("description", JStr description)]]))
                 fields)) w).
Proof.
  intros Hst Hwf Hno.
  destruct (no_match (before +:+ "/") description _ Hno) as [Ht He].
  eapply update_mcps_stores; [done|].
  rewrite update_data_well_formed by done.
  rewrite Ht, He. unfold new_entry, repo_name.
  by rewrite (last_split_after "/" before "").
Qed.

(** C7. Run with fewer than three arguments after the program name, the
    script prints the usage line on standard output, ends with status 1 and
    leaves every file and standard error as they were.  Run with three
    arguments (or more), it ends with status 0 when [update_mcps] returns
    [True]. *)
Theorem main_exit_status :
  (∀ prog args w,
     length args < 3 →
     main (prog :: args) w = (1, print usage w)
     ∧ fs (print usage w) = fs w
     ∧ stdout (print usage w) = stdout w ++ [usage]
     ∧ stderr (print usage w) = stderr w)
  ∧ (∀ prog json_file repo_url description more w w',
       update_mcps json_file repo_url description w = (true, w') →
       main (prog :: json_file :: repo_url :: description :: more) w = (0, w')).
Proof.
  split.
  - intros prog args w Hlen. unfold main.
    rewrite bool_decide_eq_true_2; [done|]. cbn. lia.
  - intros prog json_file repo_url description more w w' Hup. unfold main.
    rewrite bool_decide_eq_false_2 by (cbn; lia). cbn.
    by rewrite Hup.
Qed.

Lemma touch_no_match repo_url description repos :
  existsb (matches repo_url) repos = false →
  touch repo_url description <$> repos = repos.
Proof.
  induction repos as [|r repos IH]; cbn; [done|].
  intros [Hr Hrest]%orb_false_iff. rewrite IH by done. f_equal.
  destruct r as [| | | | | |kvs]; try done. cbn in *. by rewrite Hr.
Qed.

Lemma update_data_idem repo_url description data data' :
  update_data repo_url description data = Ok data' →
  update_data repo_url description data' = Ok data'.
Proof.
  intros Hu.
  pose proof Hu as (fields & -> & Hwf)%update_data_ok_well_formed.
  rewrite update_data_well_formed in Hu by done. injection Hu as <-.
  set (new := new_entry repo_url description (repo_name repo_url)).
  set (repos' := (touch repo_url description <$> entries fields)
                 ++ if existsb (matches repo_url) (entries fields) then [] else [new]).
  assert (touch repo_url description <$> repos' = repos') as Ht.
  { subst repos'. rewrite fmap_app. f_equal.
    - rewrite <- list_fmap_compose. apply list_fmap_ext. intros ? r _.
      apply touch_touch.
    - destruct (existsb _ _); [done|].
      change (touch repo_url description <$> [new])
        with [touch repo_url description new].
      subst new. by rewrite touch_new_entry. }
  assert (existsb (matches repo_url) repos' = true) as He.
  { subst repos'. rewrite existsb_app, existsb_matches_touch.
    destruct (existsb _ (entries fields)); [done|].
    change (existsb (matches repo_url) [new]) with (matches repo_url new || false).
    subst new. by rewrite matches_new_entry. }
  assert (Forall (λ r, is_dict r) repos') as Hd.
  { subst repos'. apply Forall_app. split.
    - unfold well_formed, entries in *.
      destruct (Dict.get "mcpRepos" fields) as [[| | | | |repos|]|]; try done.
      apply forallb_is_dict in Hwf. apply Forall_fmap.
      eapply Forall_impl; [done|]. intros r Hr. cbn. by rewrite is_dict_touch.
    - destruct (existsb _ _); by repeat constructor. }
  rewrite update_data_well_formed.
  - rewrite entries_set, Ht, He, app_nil_r. by rewrite DictFacts.set_set.
  - unfold well_formed. rewrite DictFacts.get_set_eq. by apply forallb_is_dict.
Qed.

(** C9. Updating twice with the same url and description is updating
    once: a second [update_data] leaves the document of the first as it
    is, and a second [update_mcps] leaves every file as the first left
    it. *)
Theorem update_idempotent :
  (∀ repo_url description data data',
     update_data repo_url description data = Ok data' →
     update_data repo_url description data' = Ok data')
  ∧ (∀ json_file repo_url description w,
       fs (update_mcps json_file repo_url description
             (update_mcps json_file repo_url description w).2).2
       = fs (update_mcps json_file repo_url description w).2).
Proof.
  split; [apply update_data_idem|].
  intros json_file repo_url description w.
  unfold update_mcps, update_mcps_try, mbind, io_bind, open_load, lift, open_dump.
  destruct (fs w !! json_file) as [[[e0|] [data|e1] wr]|] eqn:Hf; cbn;
    rewrite ?Hf; cbn; try done.
  destruct (update_data repo_url description data) as [data'|e] eqn:Hu; cbn.
  - destruct wr as [|e|e rest]; cbn.
    + rewrite lookup_insert_eq. cbn.
      rewrite (update_data_idem _ _ _ _ Hu). cbn.
      rewrite lookup_insert_eq. cbn. by rewrite insert_insert_eq.
    + rewrite Hf. cbn. rewrite Hu. cbn. by rewrite Hf.
    + rewrite lookup_insert_eq. cbn.
      destruct rest as [v|e2]; cbn; [|done].
      destruct (update_data repo_url description v); cbn; [|done].
      rewrite lookup_insert_eq. cbn. by rewrite insert_insert_eq.
  - rewrite Hf. cbn. by rewrite Hu.
Qed.

(** * The properties at concrete documents *)

Lemma update_overwrites_every_match_witness :
  let w := disk "mcps.json" (JDict shared_url) in
  ∃ repos',
    update_mcps "mcps.json" "https://h/o/a" "new" w
    = (true,
       written "mcps.json" (JDict (Dict.set "mcpRepos" (JList repos') shared_url)) w)
    ∧ length repos' = 3
    ∧ repos' !! 0 = Some (entry "a" "https://h/o/a" "new")
    ∧ repos' !! 1 = Some (entry "b" "https://h/o/b" "kept")
    ∧ repos' !! 2 = Some (entry "a2" "https://h/o/a" "new").
Proof.
  intros w.
  destruct (update_overwrites_every_match w "mcps.json" "https://h/o/a" "new" shared_url)
    as (repos' & Hup & Hlen & Hhit & Hmiss).
  - reflexivity.
  - reflexivity.
  - exists 0. eexists. split; reflexivity.
  - exists repos'. split; [exact Hup|]. split; [exact Hlen|].
    split; [|split].
    + exact (proj1 (Hhit 0 [("name", JStr "a"); ("url", JStr "https://h/o/a");
                               ("description", JStr "old")] eq_refl eq_refl)).
    + apply (Hmiss 1); [reflexivity|]. intros H. discriminate H.
    + exact (proj1 (Hhit 2 [("name", JStr "a2"); ("url", JStr "https://h/o/a");
                               ("description", JStr "stale")] eq_refl eq_refl)).
Defined.

Lemma update_creates_list_witness :
  let w := disk "mcps.json" (JDict [("version", JInt 1)]) in
  update_mcps "mcps.json" "https://x/y/z" "desc" w
  = (true,
     written "mcps.json"
       (JDict [("version", JInt 1);
               ("mcpRepos", JList [entry "z" "https://x/y/z" "desc"])]) w).
Proof.
  intros w.
  refine (proj1 (update_creates_list w "mcps.json" "https://x/y/z" "desc"
                   [("version", JInt 1)] _ _)); reflexivity.
Defined.

Lemma update_single_match_frame_witness :
  let w := disk "mcps.json" (JDict two_entries) in
  update_mcps "mcps.json" "https://h/o/b" "new" w
  = (true,
     written "mcps.json"
       (JDict [("mcpRepos",
                JList [entry "a" "https://h/o/a" "old"; entry "b" "https://h/o/b" "new"]);
               ("version", JInt 1)]) w).
Proof.
  intros w.
  refine (proj1 (update_single_match_frame w "mcps.json" "https://h/o/b" "new"
                   two_entries 1
                   [("name", JStr "b"); ("url", JStr "https://h/o/b");
                    ("description", JStr "kept")] _ _ _ _ _)).
  - reflexivity.
  - reflexivity.
  - reflexivity.
  - reflexivity.
  - intros [|[|j]] kvs' Hj Hl.
    + injection Hl as <-. intros H. discriminate H.
    + destruct Hj. reflexivity.
    + discriminate Hl.
Defined.

Lemma new_entry_name_witness :
  let w := disk "mcps.json" (JDict two_entries) in
  update_mcps "mcps.json" "https://example.com/org/my-repo" "desc" w
  = (true,
     written "mcps.json"
       (JDict [("mcpRepos",
                JList [entry "a" "https://h/o/a" "old"; entry "b" "https://h/o/b" "kept";
                       entry "my-repo" "https://example.com/org/my-repo" "desc"]);
               ("version", JInt 1)]) w).
Proof.
  intros w.
  refine (proj1 (new_entry_name w "mcps.json" "https://example.com/org/my-repo" "desc"
                   two_entries _ _ _)).
  - reflexivity.
  - reflexivity.
  - intros [|[|i]] kvs Hl.
    + injection Hl as <-. intros H. discriminate H.
    + injection Hl as <-. intros H. discriminate H.
    + discriminate Hl.
Defined.

Lemma trailing_separator_empty_name_witness :
  let w := disk "mcps.json" (JDict []) in
  update_mcps "mcps.json" "https://h/o/dir/" "desc" w
  = (true,
     written "mcps.json"
       (JDict [("mcpRepos", JList [entry "" "https://h/o/dir/" "desc"])]) w).
Proof.
  intros w.
  apply (trailing_separator_empty_name w "mcps.json" "https://h/o/dir" "desc" []).
  - reflexivity.
  - reflexivity.
  - intros i kvs Hl. destruct i; discriminate Hl.
Defined.

(** C6, as the specification has it, fails: with [null] for the entry
    list the call returns [False], reports the [TypeError] and leaves the
    file as it was, where a document without the field gets the new
    entry. *)
Lemma wrong_typed_list_counterexample :
  let w := disk "mcps.json" (JDict [("mcpRepos", JNull)]) in
  let w0 := disk "mcps.json" (JDict []) in
  update_mcps "mcps.json" "https://x/y/z" "desc" w
  = (false,
     eprint "Error updating JSON file: 'NoneType' object is not iterable" w)
  ∧ update_mcps "mcps.json" "https://x/y/z" "desc" w0
    = (true,
       written "mcps.json"
         (JDict [("mcpRepos", JList [entry "z" "https://x/y/z" "desc"])]) w0).
Proof. split; by vm_compute. Qed.

Lemma main_exit_status_witness :
  let w := disk "mcps.json" (JDict []) in
  main ["mcps.py"; "mcps.json"; "https://x/y/z"] w = (1, print usage w)
  ∧ main ["mcps.py"; "mcps.json"; "https://x/y/z"; "desc"] w
    = (0, written "mcps.json"
            (JDict [("mcpRepos", JList [entry "z" "https://x/y/z" "desc"])]) w).
Proof.
  intros w. split.
  - refine (proj1 (proj1 main_exit_status "mcps.py" ["mcps.json"; "https://x/y/z"] w _)).
    cbn. lia.
  - apply (proj2 main_exit_status "mcps.py" "mcps.json" "https://x/y/z" "desc" [] w).
    reflexivity.
Defined.

Lemma update_idempotent_witness :
  update_data "https://x/y/z" "desc"
    (JDict [("mcpRepos", JList [entry "z" "https://x/y/z" "desc"])])
  = Ok (JDict [("mcpRepos", JList [entry "z" "https://x/y/z" "desc"])]).
Proof.
  apply (proj1 update_idempotent "https://x/y/z" "desc" (JDict [])).
  reflexivity.
Defined.

(** * Further properties of the code *)

Section updated_facts.
Variables repo_url description : string.
Implicit Types (repos : list json) (fields : list (string * json)).

Lemma well_formed_entries fields :
  well_formed fields = true → Forall (λ r, is_dict r) (entries fields).
Proof.
  unfold well_formed, entries.
  destruct (Dict.get "mcpRepos" fields) as [[| | | | |repos|]|]; try done.
  apply forallb_is_dict.
Qed.

Lemma well_formed_set repos fields :
  Forall (λ r, is_dict r) repos →
  well_formed (Dict.set "mcpRepos" (JList repos) fields) = true.
Proof.
  intros Hd. unfold well_formed. rewrite DictFacts.get_set_eq.
  by apply forallb_is_dict.
Qed.

Lemma updated_dicts repos :
  Forall (λ r, is_dict r) repos →
  Forall (λ r, is_dict r) (updated_entries repo_url description repos).
Proof.
  intros Hd. unfold updated_entries. apply Forall_app. split.
  - apply Forall_fmap. eapply Forall_impl; [done|].
    intros r Hr. cbn. by rewrite is_dict_touch.
  - destruct (existsb _ _); by repeat constructor.
Qed.

Lemma updated_has_match repos :
  existsb (matches repo_url) (updated_entries repo_url description repos) = true.
Proof.
  unfold updated_entries. rewrite existsb_app, existsb_matches_touch.
  destruct (existsb _ repos); [done|].
  change (existsb (matches repo_url) [?x]) with (matches repo_url x || false).
  by rewrite matches_new_entry.
Qed.

(** A successful update, read backwards. *)
Lemma update_data_ok_shape data data' :
  update_data repo_url description data = Ok data' →
  ∃ fields,
    data = JDict fields
    ∧ well_formed fields = true
    ∧ data' = JDict (Dict.set "mcpRepos"
                       (JList (updated_entries repo_url description (entries fields)))
                       fields).
Proof.
  intros Hu.
  pose proof Hu as (fields & -> & Hwf)%update_data_ok_well_formed.
  rewrite update_data_well_formed in Hu by done. injection Hu as <-.
  by exists fields.
Qed.

Lemma update_data_updated fields :
  well_formed fields = true →
  update_data repo_url description (JDict fields)
  = Ok (JDict (Dict.set "mcpRepos"
                 (JList (updated_entries repo_url description (entries fields)))
                 fields)).
Proof. apply update_data_well_formed. Qed.

(** The loop stops at the first item that is no dict. *)
Lemma for_repos_stray before x after b :
  Forall (λ r, is_dict r) before →
  is_dict x = false →
  for_repos repo_url description (before ++ x :: after) b
  = Raise (no_attribute x "get").
Proof.
  intros Hd Hx. revert b.
  induction Hd as [|r before Hr _ IH]; intros b; cbn.
  - by destruct x.
  - destruct r as [| | | | | |kvs]; try done. cbn.
    destruct (url_matches repo_url kvs); cbn; by rewrite IH.
Qed.

Lemma first_stray repos :
  Forall (λ r, is_dict r) repos
  ∨ ∃ before x after,
      repos = before ++ x :: after
      ∧ Forall (λ r, is_dict r) before
      ∧ is_dict x = false.
Proof.
  induction repos as [|r repos IH]; [left; by constructor|].
  destruct (is_dict r) eqn:Hr.
  - destruct IH as [IH|(before & x & after & -> & Hd & Hx)].
    + left. constructor; [by rewrite Hr|done].
    + right. exists (r :: before), x, after.
      split; [done|]. split; [|done]. constructor; [by rewrite Hr|done].
  - right. exists [], r, repos. split; [done|]. split; [by constructor|done].
Qed.
End updated_facts.

(** X1. When [update_mcps] returns [False] and the file is not one whose
    writing breaks part-way, every file is as it was before the call:
    a failure to read, to parse, to update or to open for writing writes
    nothing.  Standard output is untouched and standard error gets one
    line. *)
Theorem update_mcps_failure_keeps_files json_file repo_url description w w' :
  update_mcps json_file repo_url description w = (false, w') →
  (∀ f e rest, fs w !! json_file = Some f → f_write f ≠ DumpFails e rest) →
  fs w' = fs w
  ∧ stdout w' = stdout w
  ∧ ∃ e, stderr w' = stderr w ++ ["Error updating JSON file: " +:+ exn_str e].
Proof.
  unfold update_mcps, update_mcps_try, mbind, io_bind, open_load, lift, open_dump.
  intros Hup Hwr.
  destruct (fs w !! json_file) as [[[e0|] [data|e1] wr]|] eqn:Hf; cbn in Hup;
    try (injection Hup as <-; split; [done|]; split; [done|];
         first [by eexists | by eexists (Exn FileNotFoundError _)]).
  destruct (update_data repo_url description data) as [data'|e]; cbn in Hup;
    [|injection Hup as <-; split; [done|]; split; [done|]; by eexists].
  rewrite Hf in Hup. cbn in Hup.
  destruct wr as [|e|e rest]; cbn in Hup.
  - done.
  - injection Hup as <-. split; [done|]. split; [done|]. by eexists.
  - by destruct (Hwr _ e rest eq_refl).
Qed.

Lemma update_mcps_failure_keeps_files_witness :
  let w := disk "mcps.json" (JList []) in
  let w' := eprint "Error updating JSON file: 'list' object has no attribute 'get'" w in
  fs w' = fs w
  ∧ stdout w' = stdout w
  ∧ ∃ e, stderr w' = stderr w ++ ["Error updating JSON file: " +:+ exn_str e].
Proof.
  intros w w'.
  apply (update_mcps_failure_keeps_files "mcps.json" "u" "d" w w').
  - reflexivity.
  - intros f e rest Hf Hw. vm_compute in Hf. injection Hf as <-. discriminate Hw.
Defined.

(** X2. [update_mcps] touches no file but the one it is given, neither
    creates nor removes a file, and prints nothing on standard output. *)
Theorem update_mcps_footprint json_file repo_url description w :
  let w' := (update_mcps json_file repo_url description w).2 in
  (∀ path, path ≠ json_file → fs w' !! path = fs w !! path)
  ∧ dom (fs w') = dom (fs w)
  ∧ stdout w' = stdout w.
Proof.
  unfold update_mcps, update_mcps_try, mbind, io_bind, open_load, lift, open_dump.
  destruct (fs w !! json_file) as [[[e0|] [data|e1] wr]|] eqn:Hf; cbn; try done.
  destruct (update_data repo_url description data) as [data'|e]; cbn; [|done].
  rewrite Hf. cbn.
  destruct wr as [|e|e rest]; cbn; [|done|].
  - split; [|split; [|done]].
    + intros path Hp. by rewrite lookup_insert_ne.
    + by apply dom_insert_lookup_L.
  - split; [|split; [|done]].
    + intros path Hp. by rewrite lookup_insert_ne.
    + by apply dom_insert_lookup_L.
Qed.

Lemma update_mcps_footprint_witness :
  let w := disk "mcps.json" (JDict []) in
  fs (update_mcps "mcps.json" "https://x/y/z" "desc" w).2 !! "other.json"
  = fs w !! "other.json".
Proof.
  intros w.
  apply (proj1 (update_mcps_footprint "mcps.json" "https://x/y/z" "desc" w)).
  intros H. discriminate H.
Defined.

(** X3. Whether the update of a loaded value succeeds depends on the
    value alone: it succeeds exactly on a JSON object whose entry list is
    missing or is a list of JSON objects. *)
Theorem update_data_succeeds_iff repo_url description data :
  is_ok (update_data repo_url description data)
  = match data with
    | JDict fields => well_formed fields
    | _ => false
    end.
Proof.
  destruct data as [| | | | | |fields]; try done.
  apply update_data_is_ok.
Qed.

(** X4. An element of the entry list that is no JSON object makes the
    update fail with the [AttributeError] of the first such element, also
    when entries before it matched the url. *)
Theorem stray_element_error repo_url description fields before x after :
  Dict.get "mcpRepos" fields = Some (JList (before ++ x :: after)) →
  Forall (λ r, is_dict r) before →
  is_dict x = false →
  update_data repo_url description (JDict fields)
  = Raise (Exn AttributeError
               ("'" +:+ type_name x +:+ "' object has no attribute 'get'")).
Proof.
  intros Hget Hd Hx. unfold update_data. rewrite Hget. cbn.
  by rewrite for_repos_stray.
Qed.

Lemma stray_element_error_witness :
  update_data "u" "d"
    (JDict [("mcpRepos", JList [entry "n" "u" "old"; JStr "stray"; JInt 5])])
  = Raise (Exn AttributeError "'str' object has no attribute 'get'").
Proof.
  apply (stray_element_error "u" "d"
           [("mcpRepos", JList [entry "n" "u" "old"; JStr "stray"; JInt 5])]
           [entry "n" "u" "old"] (JStr "stray") [JInt 5]).
  - reflexivity.
  - repeat constructor.
  - reflexivity.
Defined.

(** X6. The name of a new entry depends on the url only through what
    follows its last ['/']: a prefix ending in ['/'] can be dropped, so
    urls with the same last segment get the same name; and a name is its
    own name. *)
Theorem repo_name_last_segment :
  (∀ before rest, repo_name (before +:+ "/" +:+ rest) = repo_name rest)
  ∧ (∀ repo_url, repo_name (repo_name repo_url) = repo_name repo_url).
Proof.
  split.
  - intros before rest. unfold repo_name.
    change (before +:+ "/" +:+ rest) with (before +:+ String "/" rest).
    by rewrite last_split_after.
  - intros repo_url.
    destruct (last_split "/" repo_url) as (name & Hlast & Hname & _).
    unfold repo_name. rewrite Hlast. cbn [default].
    by rewrite occurs_none_split.
Qed.

Lemma touch_described repo_url description r kvs :
  touch repo_url description r = JDict kvs →
  Dict.get "url" kvs = Some (JStr repo_url) →
  Dict.get "description" kvs = Some (JStr description).
Proof.
  destruct r as [| | | | | |kvs0]; try done. cbn.
  destruct (url_matches repo_url kvs0) eqn:E.
  - intros [= <-] _. apply DictFacts.get_set_eq.
  - intros [= <-] Hurl%url_matches_spec. congruence.
Qed.

(** X7. After a successful update the document has an entry list, it is
    a list of JSON objects, at least one entry has the given url, and every
    entry with the given url has the given description. *)
Theorem update_data_post repo_url description data data' :
  update_data repo_url description data = Ok data' →
  ∃ fields',
    data' = JDict fields'
    ∧ Dict.get "mcpRepos" fields' = Some (JList (entries fields'))
    ∧ well_formed fields' = true
    ∧ (∃ i kvs, entries fields' !! i = Some (JDict kvs)
                ∧ Dict.get "url" kvs = Some (JStr repo_url))
    ∧ (∀ i kvs, entries fields' !! i = Some (JDict kvs) →
                Dict.get "url" kvs = Some (JStr repo_url) →
                Dict.get "description" kvs = Some (JStr description)).
Proof.
  intros (fields & -> & Hwf & ->)%update_data_ok_shape.
  eexists. split; [done|]. rewrite entries_set.
  split; [apply DictFacts.get_set_eq|].
  split; [by apply well_formed_set, updated_dicts, well_formed_entries|].
  split.
  - pose proof (updated_has_match repo_url description (entries fields)) as He.
    apply existsb_exists in He as (r & Hin & Hm).
    apply list_elem_of_In, list_elem_of_lookup_1 in Hin as [i Hi].
    destruct r as [| | | | | |kvs]; try done.
    exists i, kvs. split; [done|]. by apply url_matches_spec.
  - intros i kvs Hi Hurl. unfold updated_entries in Hi.
    apply lookup_app_Some in Hi as [Hi|[_ Hi]].
    + apply list_lookup_fmap_Some in Hi as (r & Hr & Ht).
      by eapply touch_described.
    + destruct (existsb _ _); [by rewrite lookup_nil in Hi|].
      apply list_lookup_singleton_Some in Hi as [_ Hi].
      by injection Hi as <-.
Qed.

Lemma update_data_post_witness :
  ∃ fields',
    JDict [("mcpRepos", JList [entry "z" "https://x/y/z" "desc"])] = JDict fields'
    ∧ Dict.get "mcpRepos" fields' = Some (JList (entries fields'))
    ∧ well_formed fields' = true
    ∧ (∃ i kvs, entries fields' !! i = Some (JDict kvs)
                ∧ Dict.get "url" kvs = Some (JStr "https://x/y/z"))
    ∧ (∀ i kvs, entries fields' !! i = Some (JDict kvs) →
                Dict.get "url" kvs = Some (JStr "https://x/y/z") →
                Dict.get "description" kvs = Some (JStr "desc")).
Proof.
  apply (update_data_post "https://x/y/z" "desc" (JDict [])).
  reflexivity.
Defined.

Lemma touch_overwrite repo_url d1 d2 r :
  touch repo_url d2 (touch repo_url d1 r) = touch repo_url d2 r.
Proof.
  destruct r as [| | | | | |kvs]; try done. cbn.
  destruct (url_matches repo_url kvs) eqn:E; cbn.
  - by rewrite url_matches_set_description, E, DictFacts.set_set.
  - by rewrite E.
Qed.

Lemma touch_new_entry_overwrite repo_url d1 d2 name :
  touch repo_url d2 (new_entry repo_url d1 name) = new_entry repo_url d2 name.
Proof.
  pose proof (matches_new_entry repo_url d1 name) as Hm.
  unfold new_entry, touch, matches in *. by rewrite Hm.
Qed.

Lemma updated_overwrite repo_url d1 d2 repos :
  updated_entries repo_url d2 (updated_entries repo_url d1 repos)
  = updated_entries repo_url d2 repos.
Proof.
  unfold updated_entries at 1. rewrite updated_has_match, app_nil_r.
  unfold updated_entries. rewrite fmap_app. f_equal.
  - rewrite <- list_fmap_compose. apply list_fmap_ext. intros ? r _.
    apply touch_overwrite.
  - destruct (existsb _ _); [done|].
    change (touch repo_url d2 <$> [?x]) with [touch repo_url d2 x].
    by rewrite touch_new_entry_overwrite.
Qed.

(** X8. The last description wins: updating a url with one description
    and then with another leaves the document that the second update alone
    leaves. *)
Theorem update_data_last_wins repo_url d1 d2 data data1 :
  update_data repo_url d1 data = Ok data1 →
  update_data repo_url d2 data1 = update_data repo_url d2 data.
Proof.
  intros (fields & -> & Hwf & ->)%update_data_ok_shape.
  rewrite (update_data_updated repo_url d2 fields Hwf).
  rewrite update_data_updated
    by (by apply well_formed_set, updated_dicts, well_formed_entries).
  by rewrite entries_set, DictFacts.set_set, updated_overwrite.
Qed.

Lemma update_data_last_wins_witness :
  update_data "https://h/o/b" "second"
    (JDict [("mcpRepos",
             JList [entry "a" "https://h/o/a" "old"; entry "b" "https://h/o/b" "first"]);
            ("version", JInt 1)])
  = update_data "https://h/o/b" "second" (JDict two_entries).
Proof.
  apply (update_data_last_wins "https://h/o/b" "first" "second" (JDict two_entries)).
  reflexivity.
Defined.

(** The error of an entry-list field that is there and is no list. *)
Lemma update_data_wrong_type repo_url description fields v :
  Dict.get "mcpRepos" fields = Some v →
  match v with
  | JList _ => True
  | JStr "" | JDict [] =>
      update_data repo_url description (JDict fields)
      = Raise (no_attribute v "append")
  | JStr _ | JDict _ =>
      update_data repo_url description (JDict fields)
      = Raise (no_attribute (JStr "") "get")
  | _ =>
      update_data repo_url description (JDict fields) = Raise (not_iterable v)
  end.
Proof.
  intros Hget.
  destruct v as [| | | |s| |kvs]; try done;
    try (unfold update_data; by rewrite Hget).
  - destruct s as [|c s]; unfold update_data; rewrite Hget; cbn; [|reflexivity].
    rewrite index_last_split. cbn.
    unfold Dict.contains, Dict.getitem. rewrite Hget. cbn. rewrite Hget. reflexivity.
  - destruct kvs as [|[k v] kvs]; unfold update_data; rewrite Hget; cbn;
      [|reflexivity].
    rewrite index_last_split. cbn.
    unfold Dict.contains, Dict.getitem. rewrite Hget. cbn. rewrite Hget. reflexivity.
Qed.

(** X9. Which exception the update raises depends on the loaded value
    alone: with another url and another description the same value raises
    the same exception. *)
Theorem update_data_error_independent u1 d1 u2 d2 data e :
  update_data u1 d1 data = Raise e →
  update_data u2 d2 data = Raise e.
Proof.
  intros H.
  destruct data as [| | | | | |fields]; try exact H.
  destruct (Dict.get "mcpRepos" fields) as [v|] eqn:Hget.
  2: { by rewrite update_data_absent in H. }
  pose proof (update_data_wrong_type u1 d1 fields v Hget) as H1.
  pose proof (update_data_wrong_type u2 d2 fields v Hget) as H2.
  destruct v as [| | | |s|repos|kvs]; try congruence.
  - destruct s; congruence.
  - destruct (first_stray repos) as [Hd|(before & x & after & -> & Hd & Hx)].
    + by rewrite (update_data_list u1 d1 fields repos) in H.
    + unfold update_data in *. rewrite Hget in *. cbn in *.
      rewrite for_repos_stray in * by done. exact H.
  - destruct kvs; congruence.
Qed.

Lemma update_data_error_independent_witness :
  update_data "https://x/y/z" "desc" (JDict [("mcpRepos", JInt 5)])
  = Raise (Exn TypeError "'int' object is not iterable").
Proof.
  apply (update_data_error_independent "u" "d" "https://x/y/z" "desc"
           (JDict [("mcpRepos", JInt 5)])).
  reflexivity.
Defined.

Lemma keys_set_fresh {V} (k : string) (v : V) (d : list (string * V)) :
  Dict.get k d = None → Dict.keys (Dict.set k v d) = Dict.keys d ++ [k].
Proof.
  intros Hget. rewrite DictFacts.set_fresh by done.
  unfold Dict.keys. by rewrite fmap_app.
Qed.

(** X10. A successful update leaves every other field of the document
    with its value and all keys in their order; the key of the entry list
    is added after them when the document had none. *)
Theorem update_data_other_fields repo_url description fields data' :
  update_data repo_url description (JDict fields) = Ok data' →
  ∃ fields',
    data' = JDict fields'
    ∧ (∀ k, k ≠ "mcpRepos" → Dict.get k fields' = Dict.get k fields)
    ∧ Dict.keys fields'
      = Dict.keys fields
        ++ if Dict.contains "mcpRepos" fields then [] else ["mcpRepos"].
Proof.
  intros (fields0 & [= <-] & Hwf & ->)%update_data_ok_shape.
  eexists. split; [done|]. split.
  - intros k Hk. by apply DictFacts.get_set_ne.
  - unfold Dict.contains.
    destruct (Dict.get "mcpRepos" fields) as [v|] eqn:Hget.
    + rewrite app_nil_r. apply DictFacts.keys_set_present. by rewrite Hget.
    + by apply keys_set_fresh.
Qed.

Lemma update_data_other_fields_witness :
  ∃ fields',
    JDict [("version", JInt 1);
           ("mcpRepos", JList [entry "z" "https://x/y/z" "desc"])] = JDict fields'
    ∧ (∀ k, k ≠ "mcpRepos" → Dict.get k fields' = Dict.get k [("version", JInt 1)])
    ∧ Dict.keys fields' = ["version"; "mcpRepos"].
Proof.
  apply (update_data_other_fields "https://x/y/z" "desc" [("version", JInt 1)]).
  reflexivity.
Defined.

(** X11. A successful update keeps the keys of every entry in their
    order.  An entry with the given url that had no description gets the
    key [description] after its other keys; no other key is ever added to
    an entry and none is removed. *)
Theorem update_data_entry_keys repo_url description fields fields' i kvs :
  update_data repo_url description (JDict fields) = Ok (JDict fields') →
  entries fields !! i = Some (JDict kvs) →
  ∃ kvs',
    entries fields' !! i = Some (JDict kvs')
    ∧ Dict.keys kvs'
      = Dict.keys kvs
        ++ if url_matches repo_url kvs && negb (Dict.contains "description" kvs)
           then ["description"] else [].
Proof.
  intros (fields0 & [= <-] & Hwf & [= ->])%update_data_ok_shape Hi.
  rewrite entries_set. unfold updated_entries.
  rewrite lookup_app_l by (rewrite length_fmap; by eapply lookup_lt_Some).
  rewrite list_lookup_fmap, Hi. cbn.
  destruct (url_matches repo_url kvs); cbn.
  - eexists. split; [done|]. unfold Dict.contains.
    destruct (Dict.get "description" kvs) as [v|] eqn:Hget; cbn.
    + rewrite app_nil_r. apply DictFacts.keys_set_present. by rewrite Hget.
    + by apply keys_set_fresh.
  - exists kvs. by rewrite app_nil_r.
Qed.

Lemma update_data_entry_keys_witness :
  ∃ kvs',
    entries [("mcpRepos",
              JList [JDict [("url", JStr "u"); ("name", JStr "n");
                            ("description", JStr "d")]])] !! 0
    = Some (JDict kvs')
    ∧ Dict.keys kvs' = ["url"; "name"; "description"].
Proof.
  apply (update_data_entry_keys "u" "d"
           [("mcpRepos", JList [JDict [("url", JStr "u"); ("name", JStr "n")]])]
           _ 0 [("url", JStr "u"); ("name", JStr "n")]); reflexivity.
Defined.

(** X12. A successful call leaves a file on which every later call, with
    any url and description, succeeds as well. *)
Theorem update_mcps_success_stable json_file u1 d1 u2 d2 w w' :
  update_mcps json_file u1 d1 w = (true, w') →
  (update_mcps json_file u2 d2 w').1 = true.
Proof.
  intros (data & data' & Hst & Hu & ->)%update_mcps_true_inv.
  apply update_data_ok_shape in Hu as (fields & -> & Hwf & ->).
  erewrite update_mcps_stores; [done| |].
  - unfold stores, written. cbn. apply lookup_insert_eq.
  - apply update_data_updated.
    by apply well_formed_set, updated_dicts, well_formed_entries.
Qed.

Lemma update_mcps_success_stable_witness :
  let w := disk "mcps.json" (JDict []) in
  (update_mcps "mcps.json" "https://h/o/b" "other"
     (update_mcps "mcps.json" "https://x/y/z" "desc" w).2).1 = true.
Proof.
  intros w.
  apply (update_mcps_success_stable "mcps.json" "https://x/y/z" "desc"
           "https://h/o/b" "other" w).
  reflexivity.
Defined.

(** X13. The error of an entry-list field that is there and is no list:
    [null], a boolean or a number is not iterable ([TypeError]); a string
    or an object that is not empty is iterated and its first item, a
    string, has no [get]; an empty string or object passes the loop and has
    no [append]. *)
Theorem wrong_typed_list_error repo_url description fields v :
  Dict.get "mcpRepos" fields = Some v →
  match v with
  | JList _ => True
  | JStr "" | JDict [] =>
      update_data repo_url description (JDict fields)
      = Raise (Exn AttributeError
                   ("'" +:+ type_name v +:+ "' object has no attribute 'append'"))
  | JStr _ | JDict _ =>
      update_data repo_url description (JDict fields)
      = Raise (Exn AttributeError "'str' object has no attribute 'get'")
  | _ =>
      update_data repo_url description (JDict fields)
      = Raise (Exn TypeError ("'" +:+ type_name v +:+ "' object is not iterable"))
  end.
Proof. apply update_data_wrong_type. Qed.

Lemma wrong_typed_list_error_witness :
  update_data "u" "d" (JDict [("mcpRepos", JStr "")])
  = Raise (Exn AttributeError "'str' object has no attribute 'append'").
Proof.
  apply (wrong_typed_list_error "u" "d" [("mcpRepos", JStr "")] (JStr "")).
  reflexivity.
Defined.

(** * The result of a call, the error path and the order of the entries *)

(** The update of the loaded value raises nothing but [AttributeError] and
    [TypeError]. *)
Lemma update_data_raise_kind repo_url description data e :
  update_data repo_url description data = Raise e →
  exn_kind e = AttributeError ∨ exn_kind e = TypeError.
Proof.
  intros H.
  destruct data as [| | | | | |fields];
    try (injection H as <-; by left).
  destruct (Dict.get "mcpRepos" fields) as [v|] eqn:Hget.
  2: { by rewrite update_data_absent in H. }
  pose proof (update_data_wrong_type repo_url description fields v Hget) as Hv.
  destruct v as [| | | |s|repos|kvs];
    try (rewrite Hv in H; injection H as <-; by right).
  - destruct s; rewrite Hv in H; injection H as <-; by left.
  - destruct (first_stray repos) as [Hd|(before & x & after & -> & Hd & Hx)].
    + by rewrite (update_data_list repo_url description fields repos) in H.
    + unfold update_data in H. rewrite Hget in H. cbn in H.
      rewrite for_repos_stray in H by done. injection H as <-. by left.
  - destruct kvs; rewrite Hv in H; injection H as <-; by left.
Qed.

Lemma update_mcps_stdout json_file repo_url description w :
  stdout (update_mcps json_file repo_url description w).2 = stdout w.
Proof.
  unfold update_mcps, update_mcps_try, mbind, io_bind, open_load, lift, open_dump.
  destruct (fs w !! json_file) as [[[e0|] [data|e1] wr]|] eqn:Hf; cbn; try done.
  destruct (update_data repo_url description data) as [data'|e]; cbn; [|done].
  rewrite Hf. cbn. by destruct wr.
Qed.

(** The call returns [True] exactly on a file that can be read and
    written and holds a document of the data model. *)
Lemma update_mcps_true_iff json_file repo_url description w :
  (update_mcps json_file repo_url description w).1 = true
  ↔ ∃ fields, stores w json_file (JDict fields) ∧ well_formed fields = true.
Proof.
  split.
  - destruct (update_mcps json_file repo_url description w) as [b w'] eqn:E.
    cbn. intros ->.
    apply update_mcps_true_inv in E as (data & data' & Hst & Hu & _).
    apply update_data_ok_well_formed in Hu as (fields & -> & Hwf).
    by exists fields.
  - intros (fields & Hst & Hwf).
    erewrite update_mcps_stores; [done|done|].
    by apply update_data_well_formed.
Qed.

Lemma update_mcps_true_silent json_file repo_url description w :
  (update_mcps json_file repo_url description w).1 = true →
  stderr (update_mcps json_file repo_url description w).2 = stderr w.
Proof.
  destruct (update_mcps json_file repo_url description w) as [b w'] eqn:E.
  cbn. intros ->.
  by apply update_mcps_true_inv in E as (data & data' & _ & _ & ->).
Qed.

(** The step that failed when the call returns [False], the exception it
    raised, and the line on standard error. *)
Lemma update_mcps_false_step json_file repo_url description w :
  let r := update_mcps json_file repo_url description w in
  r.1 = false →
  ∃ e,
    stderr r.2 = stderr w ++ ["Error updating JSON file: " +:+ exn_str e]
    ∧ ((fs w !! json_file = None
        ∧ e = Exn FileNotFoundError
                ("[Errno 2] No such file or directory: " +:+ py_repr json_file)
        ∧ fs r.2 = fs w)
       ∨ (∃ f, fs w !! json_file = Some f ∧ f_open_r f = Some e ∧ fs r.2 = fs w)
       ∨ (∃ f, fs w !! json_file = Some f ∧ f_open_r f = None
               ∧ f_content f = Garbled e ∧ fs r.2 = fs w)
       ∨ (∃ f data, fs w !! json_file = Some f ∧ f_open_r f = None
                    ∧ f_content f = Text data
                    ∧ update_data repo_url description data = Raise e
                    ∧ (exn_kind e = AttributeError ∨ exn_kind e = TypeError)
                    ∧ fs r.2 = fs w)
       ∨ (∃ f data data', fs w !! json_file = Some f ∧ f_open_r f = None
                          ∧ f_content f = Text data
                          ∧ update_data repo_url description data = Ok data'
                          ∧ ((f_write f = OpenFails e ∧ fs r.2 = fs w)
                             ∨ ∃ rest, f_write f = DumpFails e rest))).
Proof.
  unfold update_mcps, update_mcps_try, mbind, io_bind, open_load, lift, open_dump.
  destruct (fs w !! json_file) as [[[e0|] [data|e1] wr]|] eqn:Hf; cbn.
  - intros _. exists e0. split; [done|]. right; left. by eexists.
  - intros _. exists e0. split; [done|]. right; left. by eexists.
  - destruct (update_data repo_url description data) as [data'|e] eqn:Hu; cbn.
    + rewrite Hf. cbn. destruct wr as [|e|e rest]; cbn; [done| |].
      * intros _. exists e. split; [done|]. do 4 right.
        eexists _, data, data'. repeat split; try done. by left.
      * intros _. exists e. split; [done|]. do 4 right.
        eexists _, data, data'. repeat split; try done. right. by eexists.
    + intros _. exists e. split; [done|]. do 3 right. left.
      eexists _, data. repeat split; try done.
      by eapply update_data_raise_kind.
  - intros _. exists e1. split; [done|]. do 2 right. left. by eexists.
  - intros _.
    exists (Exn FileNotFoundError
              ("[Errno 2] No such file or directory: " +:+ py_repr json_file)).
    split; [done|]. by left.
Qed.

(** C5. [update_mcps] lets no exception through and always returns a
    boolean.  It returns [True], and prints nothing, exactly when no step
    raises, which is when the file can be read and written and holds a
    document of the data model.  In every other case one step raised:
    opening the file, [json.load], the update of the loaded value (with an
    [AttributeError] or a [TypeError]) or the writing; the call returns
    [False] and standard error gets the line ["Error updating JSON file: "]
    followed by the text of that exception.  Standard output is never
    written, and the files are unchanged unless the writing itself broke
    off. *)
Theorem update_mcps_catches json_file repo_url description w :
  let r := update_mcps json_file repo_url description w in
  stdout r.2 = stdout w
  ∧ (r.1 = true
     ↔ ∃ fields, stores w json_file (JDict fields) ∧ well_formed fields = true)
  ∧ (r.1 = true → stderr r.2 = stderr w)
  ∧ (r.1 = false →
     ∃ e,
       stderr r.2 = stderr w ++ ["Error updating JSON file: " +:+ exn_str e]
       ∧ ((fs w !! json_file = None
           ∧ e = Exn FileNotFoundError
                   ("[Errno 2] No such file or directory: " +:+ py_repr json_file)
           ∧ fs r.2 = fs w)
          ∨ (∃ f, fs w !! json_file = Some f ∧ f_open_r f = Some e ∧ fs r.2 = fs w)
          ∨ (∃ f, fs w !! json_file = Some f ∧ f_open_r f = None
                  ∧ f_content f = Garbled e ∧ fs r.2 = fs w)
          ∨ (∃ f data, fs w !! json_file = Some f ∧ f_open_r f = None
                       ∧ f_content f = Text data
                       ∧ update_data repo_url description data = Raise e
                       ∧ (exn_kind e = AttributeError ∨ exn_kind e = TypeError)
                       ∧ fs r.2 = fs w)
          ∨ (∃ f data data', fs w !! json_file = Some f ∧ f_open_r f = None
                             ∧ f_content f = Text data
                             ∧ update_data repo_url description data = Ok data'
                             ∧ ((f_write f = OpenFails e ∧ fs r.2 = fs w)
                                ∨ ∃ rest, f_write f = DumpFails e rest)))).
Proof.
  intros r. split; [|split; [|split]].
  - apply update_mcps_stdout.
  - apply update_mcps_true_iff.
  - apply update_mcps_true_silent.
  - apply update_mcps_false_step.
Qed.

Lemma update_mcps_catches_witness :
  let w := disk "mcps.json" (JDict [("mcpRepos", JInt 5)]) in
  let w0 := disk "mcps.json" (JDict []) in
  stderr (update_mcps "mcps.json" "u" "d" w).2
  = ["Error updating JSON file: 'int' object is not iterable"]
  ∧ stderr (update_mcps "mcps.json" "u" "d" w0).2 = [].
Proof.
  intros w w0. split.
  - destruct (update_mcps_catches "mcps.json" "u" "d" w) as (_ & _ & _ & Hfalse).
    destruct (Hfalse eq_refl) as (e & Herr & Hstep).
    destruct Hstep as [(Hf & _)|[(f & Hf & Hr & _)|[(f & Hf & _ & Hc & _)
      |[(f & data & Hf & _ & Hc & Hu & _)|(f & data & data' & Hf & _ & Hc & Hu & _)]]]].
    + discriminate Hf.
    + vm_compute in Hf. injection Hf as <-. discriminate Hr.
    + vm_compute in Hf. injection Hf as <-. discriminate Hc.
    + vm_compute in Hf. injection Hf as <-. injection Hc as <-.
      vm_compute in Hu. injection Hu as <-. exact Herr.
    + vm_compute in Hf. injection Hf as <-. injection Hc as <-. discriminate Hu.
  - destruct (update_mcps_catches "mcps.json" "u" "d" w0) as (_ & _ & Htrue & _).
    apply Htrue. reflexivity.
Defined.

(** C6, as the code has it.  When the entry-list field of a document is
    there and is not a list, [update_mcps] does not take it for a missing
    field.  [null], a boolean or a number raises the [TypeError] of a value
    that is not iterable; a string or an object raises an [AttributeError],
    in the loop on its first item or, when it is empty, at [append].  The
    call returns [False], standard error gets the line
    ["Error updating JSON file: "] followed by the text of the exception,
    and the files and standard output are as they were. *)
Theorem wrong_typed_list_fails w json_file repo_url description fields v :
  stores w json_file (JDict fields) →
  Dict.get "mcpRepos" fields = Some v →
  is_list v = false →
  let e :=
    match v with
    | JNull | JBool _ | JInt _ | JFloat _ =>
        Exn TypeError ("'" +:+ type_name v +:+ "' object is not iterable")
    | JStr "" | JDict [] =>
        Exn AttributeError
            ("'" +:+ type_name v +:+ "' object has no attribute 'append'")
    | _ => Exn AttributeError "'str' object has no attribute 'get'"
    end in
  let r := update_mcps json_file repo_url description w in
  update_data repo_url description (JDict fields) = Raise e
  ∧ (exn_kind e = TypeError ∨ exn_kind e = AttributeError)
  ∧ r.1 = false
  ∧ fs r.2 = fs w
  ∧ stdout r.2 = stdout w
  ∧ stderr r.2 = stderr w ++ ["Error updating JSON file: " +:+ exn_str e].
Proof.
  intros Hst Hget Hv e r.
  assert (update_data repo_url description (JDict fields) = Raise e) as Hu.
  { pose proof (update_data_wrong_type repo_url description fields v Hget) as H.
    subst e. destruct v as [| | | |[|c s]| |[|[k x] kvs]]; done. }
  split; [done|]. split.
  { subst e. destruct v as [| | | |[|c s]| |[|[k x] kvs]]; try done;
      (by left) || (by right). }
  subst r. by rewrite (update_mcps_raises _ _ _ _ _ _ Hst Hu).
Qed.

Lemma wrong_typed_list_fails_witness :
  let w := disk "mcps.json" (JDict [("mcpRepos", JDict [])]) in
  let r := update_mcps "mcps.json" "https://x/y/z" "desc" w in
  update_data "https://x/y/z" "desc" (JDict [("mcpRepos", JDict [])])
  = Raise (Exn AttributeError "'dict' object has no attribute 'append'")
  ∧ r.1 = false
  ∧ fs r.2 = fs w
  ∧ stderr r.2
    = ["Error updating JSON file: 'dict' object has no attribute 'append'"].
Proof.
  intros w r.
  destruct (wrong_typed_list_fails w "mcps.json" "https://x/y/z" "desc"
              [("mcpRepos", JDict [])] (JDict []))
    as (Hu & _ & Hfalse & Hfs & _ & Herr).
  - reflexivity.
  - reflexivity.
  - reflexivity.
  - split; [exact Hu|]. split; [exact Hfalse|]. split; [exact Hfs|exact Herr].
Defined.

(** C8. After a successful call the entry list written back holds every
    entry of the list read at the position it had: an entry with the given
    url with its description set and nothing else changed, every other
    entry as it was.  When some entry had the url nothing is appended; when
    none had it the list written is the list read followed by the one new
    entry. *)
Theorem update_keeps_order w w' json_file repo_url description :
  update_mcps json_file repo_url description w = (true, w') →
  ∃ fields repos',
    stores w json_file (JDict fields)
    ∧ w' = written json_file (JDict (Dict.set "mcpRepos" (JList repos') fields)) w
    ∧ (∀ i kvs,
         entries fields !! i = Some (JDict kvs) →
         Dict.get "url" kvs = Some (JStr repo_url) →
         repos' !! i = Some (JDict (Dict.set "description" (JStr description) kvs)))
    ∧ (∀ i r,
         entries fields !! i = Some r →
         (∀ kvs, r = JDict kvs → Dict.get "url" kvs ≠ Some (JStr repo_url)) →
         repos' !! i = Some r)
    ∧ ((∃ i kvs, entries fields !! i = Some (JDict kvs)
                 ∧ Dict.get "url" kvs = Some (JStr repo_url)) →
       length repos' = length (entries fields))
    ∧ ((∀ i kvs, entries fields !! i = Some (JDict kvs) →
                 Dict.get "url" kvs ≠ Some (JStr repo_url)) →
       repos' = entries fields
                ++ [JDict [("name", JStr (repo_name repo_url));
                           ("url", JStr repo_url);
                           ("description", JStr description)]]).
Proof.
  intros (data & data' & Hst & Hu & ->)%update_mcps_true_inv.
  apply update_data_ok_shape in Hu as (fields & -> & Hwf & ->).
  exists fields, (updated_entries repo_url description (entries fields)).
  split; [done|]. split; [done|].
  assert (∀ i r, entries fields !! i = Some r →
            updated_entries repo_url description (entries fields) !! i
            = Some (touch repo_url description r)) as Hat.
  { intros i r Hi. unfold updated_entries.
    rewrite lookup_app_l by (rewrite length_fmap; by eapply lookup_lt_Some).
    by rewrite list_lookup_fmap, Hi. }
  split; [|split; [|split]].
  - intros i kvs Hi Hurl%url_matches_spec. rewrite (Hat _ _ Hi). cbn.
    by rewrite Hurl.
  - intros i r Hi Hno. rewrite (Hat _ _ Hi). f_equal.
    destruct r as [| | | | | |kvs]; try done. cbn.
    destruct (url_matches repo_url kvs) eqn:E; [|done].
    apply url_matches_spec in E. by destruct (Hno kvs).
  - intros (i & kvs & Hi & Hurl). unfold updated_entries.
    rewrite (existsb_matches_true _ _ _ _ Hi Hurl).
    by rewrite app_nil_r, length_fmap.
  - intros Hno. unfold updated_entries.
    destruct (no_match repo_url description _ Hno) as [-> ->]. done.
Qed.

Lemma update_keeps_order_witness :
  let w := disk "mcps.json" (JDict two_entries) in
  (update_mcps "mcps.json" "https://h/o/c" "desc" w).2
  = written "mcps.json"
      (JDict [("mcpRepos",
               JList [entry "a" "https://h/o/a" "old"; entry "b" "https://h/o/b" "kept";
                      entry "c" "https://h/o/c" "desc"]);
              ("version", JInt 1)]) w.
Proof.
  intros w.
  destruct (update_keeps_order w (update_mcps "mcps.json" "https://h/o/c" "desc" w).2
              "mcps.json" "https://h/o/c" "desc")
    as (fields & repos' & Hst & Hw & _ & _ & _ & Happ).
  - reflexivity.
  - unfold stores in Hst. vm_compute in Hst. injection Hst as <-.
    rewrite Hw, Happ; [reflexivity|].
    intros [|[|i]] kvs Hl.
    + injection Hl as <-. intros H. discriminate H.
    + injection Hl as <-. intros H. discriminate H.
    + discriminate Hl.
Defined.

(** X5. What the script does as a whole.  With fewer than four words in
    [sys.argv] it prints the usage line on standard output, ends with
    status 1 and leaves the files and standard error as they were.
    Otherwise it works on the three words after the program name, whatever
    follows them, and never prints on standard output: it ends with status
    0, silently, exactly when the file can be read and written and holds a
    document of the data model, and with status 1 and one line on standard
    error in every other case.  No [IndexError] is ever raised. *)
Theorem main_cases argv w :
  let r := main argv w in
  (length argv < 4
   ∧ r.1 = 1
   ∧ stdout r.2 = stdout w ++ ["Usage: python mcps.py JSON_FILE REPO_URL DESCRIPTION"]
   ∧ stderr r.2 = stderr w
   ∧ fs r.2 = fs w)
  ∨ (∃ prog json_file repo_url description more,
       argv = prog :: json_file :: repo_url :: description :: more
       ∧ stdout r.2 = stdout w
       ∧ r.2 = (main [prog; json_file; repo_url; description] w).2
       ∧ (((∃ fields, stores w json_file (JDict fields) ∧ well_formed fields = true)
           ∧ r.1 = 0
           ∧ stderr r.2 = stderr w)
          ∨ ((¬ ∃ fields, stores w json_file (JDict fields)
                          ∧ well_formed fields = true)
             ∧ r.1 = 1
             ∧ ∃ e, stderr r.2
                    = stderr w ++ ["Error updating JSON file: " +:+ exn_str e]))).
Proof.
  intros r. subst r.
  destruct argv as [|prog [|json_file [|repo_url [|description more]]]];
    try (left; split; [cbn; lia|];
         unfold main; rewrite bool_decide_eq_true_2 by (cbn; lia); done).
  right. exists prog, json_file, repo_url, description, more. split; [done|].
  unfold main. rewrite !bool_decide_eq_false_2 by (cbn; lia). cbn.
  pose proof (update_mcps_true_iff json_file repo_url description w) as Hiff.
  pose proof (update_mcps_true_silent json_file repo_url description w) as Hsil.
  pose proof (update_mcps_false_step json_file repo_url description w) as Hstep.
  pose proof (update_mcps_stdout json_file repo_url description w) as Hout.
  cbn in Hstep, Hout.
  destruct (update_mcps json_file repo_url description w) as [[] w'];
    cbn in *.
  - split; [done|]. split; [done|]. left.
    split; [by apply Hiff|]. split; [done|]. by apply Hsil.
  - split; [done|]. split; [done|]. right. split.
    + intros H. apply Hiff in H. done.
    + split; [done|]. destruct (Hstep eq_refl) as (e & He & _). by exists e.
Qed.

Lemma main_cases_witness :
  let w := disk "mcps.json" (JList []) in
  (main ["mcps.py"; "mcps.json"; "u"; "d"; "extra"] w).1 = 1
  ∧ stdout (main ["mcps.py"; "mcps.json"; "u"; "d"; "extra"] w).2 = [].
Proof.
  intros w.
  destruct (main_cases ["mcps.py"; "mcps.json"; "u"; "d"; "extra"] w)
    as [(Hlen & _)|(prog & json_file & repo_url & description & more & Hargv & Hout
                    & _ & [((fields & Hst & _) & _)|(Hnot & Hexit & _)])].
  - cbn in Hlen. lia.
  - injection Hargv as <- <- <- <- <-.
    unfold stores in Hst. vm_compute in Hst. discriminate Hst.
  - split; [exact Hexit|exact Hout].
Defined.
